(** * Project Setup Tool: the project-template generation pipeline

    A shallow embedding of [src/app.py] (class [ProjectSetupApp]) and the
    properties of its setup pipeline.

    - Python [str] values are sequences of Unicode code points ([pystr]).
    - Every call that leaves the program (file system, network, external
      processes, Qt signals and widgets) is recorded, in program order, in
      a trace of events; what such a call answers is read from a [world].
    - A method is a computation in a small trace-and-exception monad [M]. *)

From Stdlib Require Import List NArith ZArith Bool String Ascii Lia.
Import ListNotations.

Set Implicit Arguments.

(** ** Python strings *)

Module PyStr.

Definition pystr := list N.

(** A literal of the source, read as its code points. *)
Definition py (s : string) : pystr := map N_of_ascii (list_ascii_of_string s).

Definition nl : pystr := [10%N].        (* "\n" *)
Definition dq : pystr := [34%N].        (* the double quote character *)

Fixpoint eqb (a b : pystr) : bool :=
  match a, b with
  | [], [] => true
  | x :: a', y :: b' => N.eqb x y && eqb a' b'
  | _, _ => false
  end.

(** [str.isspace] on one code point: the characters CPython's
    [_PyUnicode_IsWhitespace] accepts, which are the ones [str.strip()] and
    [str.split()] remove. *)
Definition isspace (c : N) : bool :=
  ((9 <=? c) && (c <=? 13) || (28 <=? c) && (c <=? 32)
   || (c =? 133) || (c =? 160) || (c =? 5760)
   || (8192 <=? c) && (c <=? 8202)
   || (c =? 8232) || (c =? 8233) || (c =? 8239) || (c =? 8287)
   || (c =? 12288))%N.

Fixpoint lstrip (s : pystr) : pystr :=
  match s with
  | c :: r => if isspace c then lstrip r else s
  | [] => []
  end.

Definition rstrip (s : pystr) : pystr := rev (lstrip (rev s)).

(** [s.strip()] *)
Definition strip (s : pystr) : pystr := rstrip (lstrip s).

Fixpoint startswith (s prefix : pystr) : bool :=
  match prefix, s with
  | [], _ => true
  | p :: prefix', c :: s' => N.eqb p c && startswith s' prefix'
  | _ :: _, [] => false
  end.

(** [needle in hay] *)
Fixpoint contains (needle hay : pystr) : bool :=
  startswith hay needle ||
  match hay with
  | [] => false
  | _ :: hay' => contains needle hay'
  end.

(** [sep.join(items)] *)
Fixpoint join (sep : pystr) (items : list pystr) : pystr :=
  match items with
  | [] => []
  | [x] => x
  | x :: rest => x ++ sep ++ join sep rest
  end.

(** [s.split()]: the maximal runs of non-whitespace characters.
    [cur] is the run being read, reversed. *)
Fixpoint split_from (cur : pystr) (s : pystr) : list pystr :=
  match s with
  | [] => match cur with [] => [] | _ => [rev cur] end
  | c :: r =>
      if isspace c
      then match cur with [] => split_from [] r | _ => rev cur :: split_from [] r end
      else split_from (c :: cur) r
  end.

Definition split (s : pystr) : list pystr := split_from [] s.

End PyStr.

Export PyStr.

(** A source literal ending in a newline, and a literal in double quotes. *)
Definition ln (s : string) : pystr := py s ++ nl.
Definition q (s : string) : pystr := dq ++ py s ++ dq.

(** ** Values handed to [json.dump] *)

Unset Elimination Schemes.
Inductive json : Type :=
| JNull
| JBool (b : bool)
| JInt (n : Z)
| JStr (s : pystr)
| JList (items : list json)
| JDict (entries : list (pystr * json)).
Set Elimination Schemes.

(** ** Exceptions *)

Inductive exn_class : Type :=
| Exception
| ValueError
| OSError
| FileExistsError
| FileNotFoundError
| PermissionError
| RequestException
| CalledProcessError.

(** An exception object: its class and [str(e)]. *)
Record exn : Type := mk_exn { exn_type : exn_class; exn_str : pystr }.

(** The class hierarchy, as [issubclass]. *)
Definition issubclass (c base : exn_class) : bool :=
  match base, c with
  | Exception, _ => true
  | ValueError, ValueError => true
  | OSError, (OSError | FileExistsError | FileNotFoundError
              | PermissionError | RequestException) => true
  | FileExistsError, FileExistsError => true
  | FileNotFoundError, FileNotFoundError => true
  | PermissionError, PermissionError => true
  | RequestException, RequestException => true
  | CalledProcessError, CalledProcessError => true
  | _, _ => false
  end.

Definition isinstance (e : exn) (base : exn_class) : bool :=
  issubclass (exn_type e) base.

(** ** The outside world *)

(** Calls into the operating system, the network and other programs.
    Each of them may raise. *)
Inductive call : Type :=
| os_makedirs (path : pystr) (exist_ok : bool)
| os_chdir (path : pystr)
| venv_create (env_dir : pystr) (with_pip : bool)
| requests_get (url : pystr)
| file_write (path : pystr) (text : pystr)   (* open(path, "w", encoding="utf-8"), f.write(text) *)
| json_dump (path : pystr) (obj : json) (indent : option Z)   (* open(path, "w", ...), json.dump(obj, f, indent) *)
| subprocess_run (args : list pystr) (check : bool).

(** What a run of the program does, in program order. *)
Inductive event : Type :=
| Ext (c : call)
| output_signal (text : pystr)
| progress_signal (value : Z)
| message_warning (title text : pystr)
| create_button_setEnabled (b : bool)
| cancel_button_setEnabled (b : bool)
| progress_bar_setValue (value : Z)
| output_text_clear
| thread_start.

(** The host and the answers of the outside world.  [raises c] tells
    whether the call [c] raises, and which exception; [http_response url]
    is the status code and the text of the response when the GET returns. *)
Record world : Type := mk_world {
  os_name : pystr;
  os_path_join : pystr -> list pystr -> pystr;
  os_path_exists : pystr -> bool;
  http_response : pystr -> Z * pystr;
  raises : call -> option exn
}.

(** ** The monad of traces and exceptions *)

Inductive result (A : Type) : Type :=
| Ok (a : A)
| Err (e : exn).
Arguments Ok {A} a.
Arguments Err {A} e.

Definition M (A : Type) : Type := (list event * result A)%type.

Definition trace {A} (m : M A) : list event := fst m.
Definition outcome {A} (m : M A) : result A := snd m.

Definition ret {A} (a : A) : M A := ([], Ok a).

Definition bind {A B} (m : M A) (f : A -> M B) : M B :=
  match m with
  | (t, Ok a) => let (t', r) := f a in (t ++ t', r)
  | (t, Err e) => (t, Err e)
  end.

Definition raise {A} (e : exn) : M A := ([], Err e).

Definition tell (ev : event) : M unit := ([ev], Ok tt).

Definition perform (w : world) (c : call) : M unit :=
  ([Ext c], match raises w c with Some e => Err e | None => Ok tt end).

(** [self.output_signal.emit(text)] *)
Definition emit (text : pystr) : M unit := tell (output_signal text).

Fixpoint find_handler {A} (e : exn) (handlers : list (exn_class * (exn -> M A)))
  : option (M A) :=
  match handlers with
  | [] => None
  | (c, h) :: rest => if isinstance e c then Some (h e) else find_handler e rest
  end.

(** [try: m  except C1 as e: h1 e  except C2 as e: h2 e ...] *)
Definition try_except {A} (m : M A) (handlers : list (exn_class * (exn -> M A))) : M A :=
  match m with
  | (_, Ok _) => m
  | (t, Err e) =>
      match find_handler e handlers with
      | Some (t', r) => (t ++ t', r)
      | None => m
      end
  end.

Declare Scope py_scope.
Delimit Scope py_scope with py.
Notation "x <- m ;; k" := (bind m (fun x => k))
  (at level 61, m at next level, right associativity) : py_scope.
Notation "m ;; k" := (bind m (fun _ => k))
  (at level 61, right associativity) : py_scope.
Open Scope py_scope.

(** ** The application *)

Definition BASE_PATH : pystr := py "D:\eora".
Definition VSCODE_PATH : pystr := py "C:\Program Files\Microsoft VS Code\Code.exe".

(** The two fields of [ProjectSetupApp] the pipeline reads. *)
Record app : Type := mk_app { project_name : pystr; project_type : Z }.

(** [int((current_step / total_steps) * 100)]; for the steps 1 to 8 of 9
    the quotient is not within rounding distance of an integer, so the
    truncated float is the integer quotient. *)
Definition percent (current_step total_steps : Z) : Z :=
  (current_step * 100) / total_steps.

Definition gitignore_url : pystr :=
  py "https://raw.githubusercontent.com/github/gitignore/main/Python.gitignore".

Definition download_gitignore (w : world) : M unit :=
  perform w (requests_get gitignore_url) ;;
  let response := http_response w gitignore_url in
  if (fst response =? 200)%Z then
    perform w (file_write (py ".gitignore") (snd response)) ;;
    emit (py "SUCCESS: .gitignore file downloaded.")
  else
    raise (mk_exn Exception (py "ERROR: Failed to download .gitignore file.")).

Definition init_git (w : world) : M unit :=
  perform w (subprocess_run [py "git"; py "init"] true) ;;
  emit (py "SUCCESS: Git repository initialized.").

Definition ruff_config : pystr :=
  ln "[tool.ruff]" ++ ln "line-length = 88"
  ++ py "select = [" ++ q "E" ++ py ", " ++ q "F" ++ py ", " ++ q "W" ++ py ", "
  ++ q "B" ++ py ", " ++ q "C" ++ ln "]"
  ++ ln "ignore = []".

Definition create_ruff_config (w : world) : M unit :=
  perform w (file_write (py "ruff.toml") ruff_config) ;;
  emit (py "SUCCESS: ruff.toml file created.").

(** The text [create_readme] writes. *)
Definition readme_content (self : app) (run_command : pystr) : pystr :=
  let readme_content :=
    (py "# " ++ project_name self ++ nl ++ nl)
    ++ ln "## How to Run"
    ++ nl
    ++ (run_command ++ nl)
    ++ nl
    ++ ln "## How to Run Tests"
    ++ nl
    ++ ln "pytest"
    ++ nl
    ++ ln "## Docker Usage"
    ++ ln "### Build Docker Image"
    ++ nl
    ++ (py "docker build -t " ++ project_name self ++ ln " .")
    ++ nl
    ++ ln "### Run Docker Container"
    ++ nl in
  let readme_content :=
    if contains (py "uvicorn") run_command then
      readme_content ++ (py "docker run -p 8000:8000 " ++ project_name self ++ nl)
    else if contains (py "jupyter") run_command then
      readme_content ++ (py "docker run -p 8888:8888 " ++ project_name self ++ nl)
    else
      readme_content ++ (py "docker run --rm " ++ project_name self ++ nl) in
  readme_content ++ (nl ++ ln "## Docker Compose Usage" ++ nl ++ ln "docker-compose up --build" ++ nl).

Definition create_readme (w : world) (self : app) (run_command : pystr) : M unit :=
  perform w (file_write (py "README.md") (readme_content self run_command)).

(** [f"{command}"] for [command : str | None]. *)
Definition format_command (command : option pystr) : pystr :=
  match command with
  | Some c => c
  | None => py "None"
  end.

(** The texts of the notebook branch of [create_docker_files]. *)
Definition notebook_dockerfile : pystr :=
  ln "FROM jupyter/base-notebook:python-3.11.6" ++ ln "COPY notebooks/ /home/jovyan/work/".

Definition notebook_compose : pystr :=
  ln "services:"
  ++ ln "  jupyter:"
  ++ ln "    build: ."
  ++ ln "    ports:"
  ++ (py "      - " ++ q "8888:8888" ++ nl)
  ++ ln "    volumes:"
  ++ ln "      - ./notebooks:/home/jovyan/work".

(** The texts of its other branch. *)
Definition dockerfile_content (command : option pystr) : pystr :=
  let dockerfile_content :=
    ln "FROM python:3.9-slim"
    ++ ln "WORKDIR /app"
    ++ ln "COPY requirements.txt ."
    ++ ln "RUN pip install --no-cache-dir -r requirements.txt"
    ++ ln "COPY . ." in
  match command with
  | Some ((_ :: _) as command) =>
      let cmd_list := split command in
      let dockerfile_content := dockerfile_content ++ py "CMD [" in
      let dockerfile_content :=
        dockerfile_content ++ join (py ", ") (map (fun arg => dq ++ arg ++ dq) cmd_list) in
      dockerfile_content ++ ln "]"
  | _ =>
      dockerfile_content ++ (py "CMD [" ++ q "python" ++ py ", " ++ q "app/main.py" ++ ln "]")
  end.

Definition docker_compose_content (command : option pystr) (is_fastapi : bool) : pystr :=
  let docker_compose_content := ln "services:" ++ ln "  app:" ++ ln "    build: ." in
  let docker_compose_content :=
    if is_fastapi then
      docker_compose_content ++ (ln "    ports:" ++ (py "      - " ++ q "8000:8000" ++ nl))
    else docker_compose_content in
  docker_compose_content ++ (py "    command: " ++ format_command command ++ nl).

Definition create_docker_files (w : world) (command : option pystr)
    (is_data_project is_fastapi : bool) : M unit :=
  if is_data_project then
    perform w (file_write (py "Dockerfile") notebook_dockerfile) ;;
    perform w (file_write (py "docker-compose.yml") notebook_compose)
  else
    perform w (file_write (py "Dockerfile") (dockerfile_content command)) ;;
    perform w (file_write (py "docker-compose.yml") (docker_compose_content command is_fastapi)).

Definition requirements_content (packages : list pystr) : pystr :=
  join nl packages ++ nl.

Definition create_requirements (w : world) (packages : list pystr) : M unit :=
  perform w (file_write (py "requirements.txt") (requirements_content packages)).

(** The package lists the three set-up methods pass to [create_requirements]. *)
Definition basic_packages : list pystr :=
  [py "pytest"; py "pytest-cov"; py "pytest-mock"; py "pytest-xdist"; py "pytest-asyncio";
   py "pytest-profiling"].

Definition data_analytics_packages : list pystr :=
  [py "jupyter"; py "pytest"; py "pytest-cov"; py "pytest-mock"; py "pytest-xdist";
   py "pytest-asyncio"; py "pytest-profiling"].

Definition fastapi_packages : list pystr :=
  [py "fastapi"; py "uvicorn"; py "pytest"; py "pytest-cov"; py "pytest-mock";
   py "pytest-xdist"; py "pytest-asyncio"; py "pytest-profiling"; py "httpx"].

Definition hello_world : pystr := py "print(" ++ q "Hello, World!" ++ ln ")".

Definition test_true_content : pystr := ln "def test_true():" ++ ln "    assert True".

Definition setup_basic_python_project (w : world) (self : app) : M unit :=
  perform w (os_makedirs (py "app") true) ;;
  perform w (os_makedirs (py "tests") true) ;;
  let main_py_content := hello_world in
  perform w (file_write (os_path_join w (py "app") [py "main.py"]) main_py_content) ;;
  let test_basic_content := test_true_content in
  perform w (file_write (os_path_join w (py "tests") [py "test_basic.py"]) test_basic_content) ;;
  create_readme w self (py "python app/main.py") ;;
  create_docker_files w (Some (py "python app/main.py")) false false ;;
  create_requirements w basic_packages ;;
  emit (py "SUCCESS: Basic Python project set up.").

(** The notebook cell's source line: the hello-world statement, no newline. *)
Definition hello_world_cell : pystr := py "print(" ++ q "Hello, World!" ++ py ")".

Definition notebook_content : json :=
  JDict [
    (py "cells", JList [
      JDict [
        (py "cell_type", JStr (py "code"));
        (py "execution_count", JNull);
        (py "metadata", JDict []);
        (py "outputs", JList []);
        (py "source", JList [JStr hello_world_cell])
      ]
    ]);
    (py "metadata", JDict []);
    (py "nbformat", JInt 4);
    (py "nbformat_minor", JInt 5)
  ].

Definition setup_data_analytics_project (w : world) (self : app) : M unit :=
  perform w (os_makedirs (py "notebooks") true) ;;
  perform w (os_makedirs (py "tests") true) ;;
  perform w (json_dump (os_path_join w (py "notebooks") [py "analysis.ipynb"])
               notebook_content None) ;;
  let test_notebook_content := test_true_content in
  perform w (file_write (os_path_join w (py "tests") [py "test_notebook.py"])
               test_notebook_content) ;;
  create_readme w self (py "jupyter notebook notebooks/analysis.ipynb") ;;
  create_docker_files w None true false ;;
  create_requirements w data_analytics_packages ;;
  emit (py "SUCCESS: Data analytics project set up.").

Definition fastapi_main_py_content : pystr :=
  ln "from fastapi import FastAPI"
  ++ nl
  ++ ln "app = FastAPI()"
  ++ nl
  ++ (py "@app.get(" ++ q "/" ++ ln ")")
  ++ ln "async def read_root():"
  ++ (py "    return {" ++ q "Hello" ++ py ": " ++ q "World" ++ ln "}").

Definition test_app_content : pystr :=
  ln "import pytest"
  ++ ln "from httpx import AsyncClient"
  ++ ln "from app.main import app"
  ++ nl
  ++ ln "@pytest.mark.asyncio"
  ++ ln "async def test_read_root():"
  ++ (py "    async with AsyncClient(app=app, base_url=" ++ q "http://test" ++ ln ") as ac:")
  ++ (py "        response = await ac.get(" ++ q "/" ++ ln ")")
  ++ ln "    assert response.status_code == 200"
  ++ (py "    assert response.json() == {" ++ q "Hello" ++ py ": " ++ q "World" ++ ln "}").

Definition setup_fastapi_project (w : world) (self : app) : M unit :=
  perform w (os_makedirs (py "app") true) ;;
  perform w (os_makedirs (py "tests") true) ;;
  perform w (file_write (os_path_join w (py "app") [py "main.py"]) fastapi_main_py_content) ;;
  perform w (file_write (os_path_join w (py "tests") [py "test_app.py"]) test_app_content) ;;
  create_readme w self (py "uvicorn app.main:app --reload") ;;
  create_docker_files w (Some (py "uvicorn app.main:app --host 0.0.0.0 --port 8000")) false true ;;
  create_requirements w fastapi_packages ;;
  emit (py "SUCCESS: FastAPI project set up.").

Definition pip_executable (w : world) (venv_dir : pystr) : pystr :=
  if PyStr.eqb (os_name w) (py "nt")
  then os_path_join w venv_dir [py "Scripts"; py "pip.exe"]
  else os_path_join w venv_dir [py "bin"; py "pip"].

Definition pip_install (w : world) (venv_dir : pystr) : call :=
  subprocess_run [pip_executable w venv_dir; py "install"; py "-r"; py "requirements.txt"] true.

Definition install_dependencies (w : world) (venv_dir : pystr) : M unit :=
  emit (py "INFO: Installing dependencies...") ;;
  try_except
    (perform w (pip_install w venv_dir) ;;
     emit (py "SUCCESS: Dependencies installed."))
    [(CalledProcessError,
      fun e => emit (py "ERROR: Failed to install dependencies: " ++ exn_str e))].

Definition settings (w : world) : json :=
  JDict [
    (py "python.pythonPath",
      JStr (if PyStr.eqb (os_name w) (py "nt")
            then py ".venv\Scripts\python.exe" else py ".venv/bin/python"));
    (py "editor.formatOnSave", JBool true);
    (py "python.linting.enabled", JBool true);
    (py "python.linting.ruffEnabled", JBool true);
    (py "python.linting.ruffPath",
      JStr (if PyStr.eqb (os_name w) (py "nt")
            then py ".venv\Scripts\ruff.exe" else py ".venv/bin/ruff"));
    (py "python.testing.pytestEnabled", JBool true);
    (py "python.testing.pytestArgs", JList [JStr (py "tests")])
  ].

Definition vscode_dir (w : world) : pystr := os_path_join w (py ".vscode") [].

Definition write_settings (w : world) : call :=
  json_dump (os_path_join w (vscode_dir w) [py "settings.json"]) (settings w) (Some 4%Z).

Definition setup_vscode (w : world) : M unit :=
  perform w (os_makedirs (vscode_dir w) true) ;;
  perform w (write_settings w).

Definition code_command (project_dir : pystr) : list pystr := [VSCODE_PATH; project_dir].

Definition launch_editor (project_dir : pystr) : call :=
  subprocess_run (code_command project_dir) true.

Definition open_in_vscode (w : world) (project_dir : pystr) : M unit :=
  try_except
    (perform w (launch_editor project_dir) ;;
     emit (py "SUCCESS: Project opened in VS Code."))
    [(FileNotFoundError,
      fun _ => emit (py "ERROR: Could not find VS Code. Ensure that the path is correct."));
     (CalledProcessError,
      fun e => emit (py "ERROR: Failed to open VS Code: " ++ exn_str e))].

Definition project_dir_of (w : world) (self : app) : pystr :=
  os_path_join w BASE_PATH [project_name self].

(** The [try] block of [run_setup]. *)
Definition run_setup_body (w : world) (self : app) : M unit :=
  let total_steps := 9%Z in
  let current_step := 0%Z in
  let project_dir := project_dir_of w self in
  (if os_path_exists w project_dir then
     raise (mk_exn FileExistsError
              (py "ERROR: Project directory " ++ dq ++ project_dir ++ dq ++ py " already exists."))
   else ret tt) ;;
  perform w (os_makedirs project_dir false) ;;
  perform w (os_chdir project_dir) ;;
  emit (py "SUCCESS: Created project directory " ++ dq ++ project_dir ++ dq ++ py ".") ;;
  let current_step := (current_step + 1)%Z in
  tell (progress_signal (percent current_step total_steps)) ;;
  let venv_dir := os_path_join w project_dir [py ".venv"] in
  perform w (venv_create venv_dir true) ;;
  emit (py "SUCCESS: Virtual environment created.") ;;
  let current_step := (current_step + 1)%Z in
  tell (progress_signal (percent current_step total_steps)) ;;
  download_gitignore w ;;
  let current_step := (current_step + 1)%Z in
  tell (progress_signal (percent current_step total_steps)) ;;
  init_git w ;;
  let current_step := (current_step + 1)%Z in
  tell (progress_signal (percent current_step total_steps)) ;;
  create_ruff_config w ;;
  let current_step := (current_step + 1)%Z in
  tell (progress_signal (percent current_step total_steps)) ;;
  (if (project_type self =? 1)%Z then setup_basic_python_project w self
   else if (project_type self =? 2)%Z then setup_data_analytics_project w self
   else if (project_type self =? 3)%Z then setup_fastapi_project w self
   else raise (mk_exn ValueError (py "ERROR: Invalid project type selected."))) ;;
  let current_step := (current_step + 1)%Z in
  tell (progress_signal (percent current_step total_steps)) ;;
  setup_vscode w ;;
  emit (py "SUCCESS: VS Code settings configured.") ;;
  let current_step := (current_step + 1)%Z in
  tell (progress_signal (percent current_step total_steps)) ;;
  install_dependencies w venv_dir ;;
  let current_step := (current_step + 1)%Z in
  tell (progress_signal (percent current_step total_steps)) ;;
  open_in_vscode w project_dir ;;
  tell (progress_signal 100%Z) ;;
  tell (create_button_setEnabled true) ;;
  tell (cancel_button_setEnabled true).

(** The [except Exception as e] clause of [run_setup]. *)
Definition run_setup_handler (e : exn) : M unit :=
  emit (py "ERROR: " ++ exn_str e) ;;
  tell (create_button_setEnabled true) ;;
  tell (cancel_button_setEnabled true).

Definition run_setup (w : world) (self : app) : M unit :=
  try_except (run_setup_body w self) [(Exception, run_setup_handler)].

(** [create_project], given the text of the name field and the index of
    the selected project type; the worker thread's [run_setup] is run in
    place, with the fields the method has just assigned. *)
Definition create_project (w : world) (name_input : pystr) (current_index : Z) : M unit :=
  let self := mk_app (strip name_input) (current_index + 1)%Z in
  match project_name self with
  | [] =>
      tell (message_warning (py "Input Error") (py "Please enter a project name."))
  | _ :: _ =>
      tell (create_button_setEnabled false) ;;
      tell (cancel_button_setEnabled false) ;;
      tell (progress_bar_setValue 0%Z) ;;
      tell output_text_clear ;;
      tell thread_start ;;
      run_setup w self
  end.

(** ** A concrete host *)

(** [posixpath.join] *)
Definition posix_join (a : pystr) (paths : list pystr) : pystr :=
  fold_left
    (fun path b =>
       if startswith b (py "/") then b
       else match rev path with
            | [] => path ++ b
            | c :: _ => if N.eqb c 47 then path ++ b else path ++ py "/" ++ b
            end)
    paths a.

(** A POSIX host with an empty base directory on which nothing fails;
    the template server answers 200 with [body]. *)
Definition calm_world (body : pystr) : world :=
  {| os_name := py "posix";
     os_path_join := posix_join;
     os_path_exists := fun _ => false;
     http_response := fun _ => (200%Z, body);
     raises := fun _ => None |}.

(** The same host, on which exactly the calls selected by [fails] raise [e]. *)
Definition faulty_world (body : pystr) (fails : call -> bool) (e : exn) : world :=
  {| os_name := py "posix";
     os_path_join := posix_join;
     os_path_exists := fun _ => false;
     http_response := fun _ => (200%Z, body);
     raises := fun c => if fails c then Some e else None |}.

(** ** Scripts: straight-line stretches of the pipeline *)

(** [pre t m]: the events [t] happen, then [m] runs. *)
Definition pre {A} (t : list event) (m : M A) : M A := (t ++ trace m, outcome m).

(** Running a list of events in order, stopping at the first call that
    raises.  The straight-line methods of the application are such runs
    (lemmas [setup_basic_script] and following). *)
Fixpoint run_script (w : world) (s : list event) : M unit :=
  match s with
  | [] => ret tt
  | Ext c :: s' =>
      match raises w c with
      | Some e => ([Ext c], Err e)
      | None => pre [Ext c] (run_script w s')
      end
  | ev :: s' => pre [ev] (run_script w s')
  end.

Definition is_call (ev : event) : bool :=
  match ev with Ext _ => true | _ => false end.

(** The calls to the outside world among the events of a run. *)
Definition ext_calls (tr : list event) : list event := filter is_call tr.

Definition venv_dir_of (w : world) (self : app) : pystr :=
  os_path_join w (project_dir_of w self) [py ".venv"].

(** Steps 1 (after the check) and 2 of [run_setup]. *)
Definition scaffold_script (w : world) (self : app) : list event :=
  [Ext (os_makedirs (project_dir_of w self) false);
   Ext (os_chdir (project_dir_of w self));
   output_signal (py "SUCCESS: Created project directory " ++ dq ++ project_dir_of w self
                  ++ dq ++ py ".");
   progress_signal 11;
   Ext (venv_create (venv_dir_of w self) true);
   output_signal (py "SUCCESS: Virtual environment created.");
   progress_signal 22].

(** Steps 4 and 5, from the progress report of step 3 on. *)
Definition vcs_lint_script : list event :=
  [progress_signal 33;
   Ext (subprocess_run [py "git"; py "init"] true);
   output_signal (py "SUCCESS: Git repository initialized.");
   progress_signal 44;
   Ext (file_write (py "ruff.toml") ruff_config);
   output_signal (py "SUCCESS: ruff.toml file created.");
   progress_signal 55].

Definition basic_script (w : world) (self : app) : list event :=
  [Ext (os_makedirs (py "app") true);
   Ext (os_makedirs (py "tests") true);
   Ext (file_write (os_path_join w (py "app") [py "main.py"]) hello_world);
   Ext (file_write (os_path_join w (py "tests") [py "test_basic.py"]) test_true_content);
   Ext (file_write (py "README.md") (readme_content self (py "python app/main.py")));
   Ext (file_write (py "Dockerfile") (dockerfile_content (Some (py "python app/main.py"))));
   Ext (file_write (py "docker-compose.yml")
          (docker_compose_content (Some (py "python app/main.py")) false));
   Ext (file_write (py "requirements.txt") (requirements_content basic_packages));
   output_signal (py "SUCCESS: Basic Python project set up.")].

Definition data_analytics_script (w : world) (self : app) : list event :=
  [Ext (os_makedirs (py "notebooks") true);
   Ext (os_makedirs (py "tests") true);
   Ext (json_dump (os_path_join w (py "notebooks") [py "analysis.ipynb"]) notebook_content None);
   Ext (file_write (os_path_join w (py "tests") [py "test_notebook.py"]) test_true_content);
   Ext (file_write (py "README.md")
          (readme_content self (py "jupyter notebook notebooks/analysis.ipynb")));
   Ext (file_write (py "Dockerfile") notebook_dockerfile);
   Ext (file_write (py "docker-compose.yml") notebook_compose);
   Ext (file_write (py "requirements.txt") (requirements_content data_analytics_packages));
   output_signal (py "SUCCESS: Data analytics project set up.")].

Definition fastapi_script (w : world) (self : app) : list event :=
  [Ext (os_makedirs (py "app") true);
   Ext (os_makedirs (py "tests") true);
   Ext (file_write (os_path_join w (py "app") [py "main.py"]) fastapi_main_py_content);
   Ext (file_write (os_path_join w (py "tests") [py "test_app.py"]) test_app_content);
   Ext (file_write (py "README.md") (readme_content self (py "uvicorn app.main:app --reload")));
   Ext (file_write (py "Dockerfile")
          (dockerfile_content (Some (py "uvicorn app.main:app --host 0.0.0.0 --port 8000"))));
   Ext (file_write (py "docker-compose.yml")
          (docker_compose_content
             (Some (py "uvicorn app.main:app --host 0.0.0.0 --port 8000")) true));
   Ext (file_write (py "requirements.txt") (requirements_content fastapi_packages));
   output_signal (py "SUCCESS: FastAPI project set up.")].

(** Step 7, from the progress report of step 6 on. *)
Definition editor_config_script (w : world) : list event :=
  [progress_signal 66;
   Ext (os_makedirs (vscode_dir w) true);
   Ext (write_settings w);
   output_signal (py "SUCCESS: VS Code settings configured.");
   progress_signal 77].

Definition finish_script : list event :=
  [progress_signal 100; create_button_setEnabled true; cancel_button_setEnabled true].

(** The three places where [run_setup] itself decides. *)
Definition already_exists (w : world) (self : app) : exn :=
  mk_exn FileExistsError
    (py "ERROR: Project directory " ++ dq ++ project_dir_of w self ++ dq
     ++ py " already exists.").

Definition check_exists (w : world) (self : app) : M unit :=
  if os_path_exists w (project_dir_of w self) then raise (already_exists w self) else ret tt.

Definition download_failed : exn :=
  mk_exn Exception (py "ERROR: Failed to download .gitignore file.").

Definition invalid_type : exn :=
  mk_exn ValueError (py "ERROR: Invalid project type selected.").

Definition select_template (w : world) (self : app) : M unit :=
  if (project_type self =? 1)%Z then run_script w (basic_script w self)
  else if (project_type self =? 2)%Z then run_script w (data_analytics_script w self)
  else if (project_type self =? 3)%Z then run_script w (fastapi_script w self)
  else raise invalid_type.

(** [run_setup_body], stretch by stretch (lemma [run_setup_body_pipeline]). *)
Definition pipeline (w : world) (self : app) : M unit :=
  check_exists w self ;;
  run_script w (scaffold_script w self) ;;
  download_gitignore w ;;
  run_script w vcs_lint_script ;;
  select_template w self ;;
  run_script w (editor_config_script w) ;;
  install_dependencies w (venv_dir_of w self) ;;
  run_script w [progress_signal 88] ;;
  open_in_vscode w (project_dir_of w self) ;;
  run_script w finish_script.

(** The events of a download that succeeds. *)
Definition fetch_events (w : world) : list event :=
  [Ext (requests_get gitignore_url);
   Ext (file_write (py ".gitignore") (snd (http_response w gitignore_url)));
   output_signal (py "SUCCESS: .gitignore file downloaded.")].

(** The pipeline up to a step, and from step 8 on. *)
Definition steps_1_2 (w : world) (self : app) : M unit :=
  check_exists w self ;;
  run_script w (scaffold_script w self).

Definition steps_1_5 (w : world) (self : app) : M unit :=
  steps_1_2 w self ;;
  download_gitignore w ;;
  run_script w vcs_lint_script.

Definition steps_1_6 (w : world) (self : app) : M unit :=
  steps_1_2 w self ;;
  download_gitignore w ;;
  run_script w vcs_lint_script ;;
  select_template w self.

Definition steps_1_7 (w : world) (self : app) : M unit :=
  steps_1_6 w self ;;
  run_script w (editor_config_script w).

Definition steps_8_9 (w : world) (self : app) : M unit :=
  install_dependencies w (venv_dir_of w self) ;;
  run_script w [progress_signal 88] ;;
  open_in_vscode w (project_dir_of w self) ;;
  run_script w finish_script.

(** The fields [create_project] assigns from the form. *)
Definition submitted (name_input : pystr) (current_index : Z) : app :=
  mk_app (strip name_input) (current_index + 1).

(** What [create_project] does before it starts the worker thread. *)
Definition start_events : list event :=
  [create_button_setEnabled false; cancel_button_setEnabled false;
   progress_bar_setValue 0; output_text_clear; thread_start].

(** What the [except] clause of [run_setup] does. *)
Definition handler_events (e : exn) : list event :=
  [output_signal (py "ERROR: " ++ exn_str e);
   create_button_setEnabled true; cancel_button_setEnabled true].

(** The success line of the Template Generator, by project type. *)
Definition template_done (tr : list event) : Prop :=
  In (output_signal (py "SUCCESS: Basic Python project set up.")) tr
  \/ In (output_signal (py "SUCCESS: Data analytics project set up.")) tr
  \/ In (output_signal (py "SUCCESS: FastAPI project set up.")) tr.

(** The script of the Template Generator for the three project types. *)
Definition template_script (w : world) (self : app) : list event :=
  if (project_type self =? 1)%Z then basic_script w self
  else if (project_type self =? 2)%Z then data_analytics_script w self
  else if (project_type self =? 3)%Z then fastapi_script w self
  else [].

(** The events of steps 1 to 6, and 1 to 7, when they all succeed. *)
Definition events_1_6 (w : world) (self : app) : list event :=
  scaffold_script w self ++ fetch_events w ++ vcs_lint_script ++ template_script w self.

Definition events_1_7 (w : world) (self : app) : list event :=
  events_1_6 w self ++ editor_config_script w.


Definition is_launch (c : call) : bool :=
  match c with subprocess_run [a; _] _ => PyStr.eqb a VSCODE_PATH | _ => false end.

Definition is_template_success (ev : event) : bool :=
  match ev with
  | output_signal t =>
      PyStr.eqb t (py "SUCCESS: Basic Python project set up.")
      || PyStr.eqb t (py "SUCCESS: Data analytics project set up.")
      || PyStr.eqb t (py "SUCCESS: FastAPI project set up.")
  | _ => false
  end.

Definition not_template_success (ev : event) : bool := negb (is_template_success ev).

(** No event of [tr] is a call accepted by [p]. *)
Definition no_call (p : call -> bool) (tr : list event) : bool :=
  forallb (fun ev => match ev with Ext c => negb (p c) | _ => true end) tr.

(** A run that stops right after any raising call it makes, with that
    call's exception. *)
Definition fail_fast (w : world) {A} (m : M A) : Prop :=
  forall c e, In (Ext c) (trace m) -> raises w c = Some e ->
    exists p, m = (p ++ [Ext c], Err e).

(** The launcher's call returns, or raises what [open_in_vscode] handles. *)
Definition launch_caught (w : world) (project_dir : pystr) : bool :=
  match raises w (launch_editor project_dir) with
  | None => true
  | Some e => isinstance e FileNotFoundError || isinstance e CalledProcessError
  end.

(** ** The README, piece by piece *)

Definition readme_intro (name run_command : pystr) : pystr :=
  (py "# " ++ name ++ nl ++ nl)
  ++ ln "## How to Run" ++ nl ++ (run_command ++ nl) ++ nl
  ++ ln "## How to Run Tests" ++ nl ++ ln "pytest" ++ nl
  ++ ln "## Docker Usage" ++ ln "### Build Docker Image" ++ nl
  ++ (py "docker build -t " ++ name ++ ln " .") ++ nl
  ++ ln "### Run Docker Container" ++ nl.

Definition readme_outro : pystr :=
  nl ++ ln "## Docker Compose Usage" ++ nl ++ ln "docker-compose up --build" ++ nl.

(** The options of the [docker run] line, chosen by the marker words. *)
Definition docker_run_options (run_command : pystr) : pystr :=
  if contains (py "uvicorn") run_command then py "-p 8000:8000 "
  else if contains (py "jupyter") run_command then py "-p 8888:8888 "
  else py "--rm ".

Definition docker_run_line (name run_command : pystr) : pystr :=
  py "docker run " ++ docker_run_options run_command ++ name ++ nl.

(** The six test packages. *)
Definition test_packages : list pystr :=
  [py "pytest"; py "pytest-cov"; py "pytest-mock"; py "pytest-xdist"; py "pytest-asyncio";
   py "pytest-profiling"].

(** One name per line, each line ended by a newline. *)
Definition lines (items : list pystr) : pystr := List.concat (map (fun x => x ++ nl) items).

(** ** Hosts on which one thing goes wrong *)

Definition is_settings_write (c : call) : bool :=
  match c with json_dump _ _ (Some _) => true | _ => false end.

Definition is_pip_install (c : call) : bool :=
  match c with subprocess_run [_; _; _; _] _ => true | _ => false end.

Definition disk_full : exn := mk_exn OSError (py "[Errno 28] No space left on device").

Definition pip_exit_1 : exn :=
  mk_exn CalledProcessError (py "Command returned non-zero exit status 1.").

(** A POSIX host whose template server answers [status]. *)
Definition status_world (status : Z) (body : pystr) : world :=
  {| os_name := py "posix";
     os_path_join := posix_join;
     os_path_exists := fun _ => false;
     http_response := fun _ => (status, body);
     raises := fun _ => None |}.

(** A POSIX host on which the paths selected by [present] exist. *)
Definition occupied_world (present : pystr -> bool) : world :=
  {| os_name := py "posix";
     os_path_join := posix_join;
     os_path_exists := present;
     http_response := fun _ => (200%Z, []);
     raises := fun _ => None |}.

(** The calm host, except that writing the editor settings fails. *)
Definition full_disk_world : world := faulty_world [] is_settings_write disk_full.

(** The calm host, except that the package manager exits with status 1. *)
Definition pip_fails_world : world := faulty_world [] is_pip_install pip_exit_1.

(** ** Further stretches and recognisers *)

(** The pipeline up to the report of step 8, and up to the launcher. *)
Definition steps_1_8 (w : world) (self : app) : M unit :=
  steps_1_7 w self ;;
  install_dependencies w (venv_dir_of w self) ;;
  run_script w [progress_signal 88].

Definition steps_1_9 (w : world) (self : app) : M unit :=
  steps_1_8 w self ;;
  open_in_vscode w (project_dir_of w self).

Definition is_button_event (ev : event) : bool :=
  match ev with
  | create_button_setEnabled _ | cancel_button_setEnabled _ => true
  | _ => false
  end.

Definition not_button_event (ev : event) : bool := negb (is_button_event ev).

(** The events of steps 8 and 9 when both external programs return. *)
Definition install_and_launch_script (w : world) (self : app) : list event :=
  [output_signal (py "INFO: Installing dependencies...");
   Ext (pip_install w (venv_dir_of w self));
   output_signal (py "SUCCESS: Dependencies installed.");
   progress_signal 88;
   Ext (launch_editor (project_dir_of w self));
   output_signal (py "SUCCESS: Project opened in VS Code.")].

(** The values reported on [progress_signal], and the texts emitted on
    [output_signal], in the order of the run. *)
Fixpoint progress_values (tr : list event) : list Z :=
  match tr with
  | [] => []
  | progress_signal v :: tr' => v :: progress_values tr'
  | _ :: tr' => progress_values tr'
  end.

Fixpoint output_texts (tr : list event) : list pystr :=
  match tr with
  | [] => []
  | output_signal t :: tr' => t :: output_texts tr'
  | _ :: tr' => output_texts tr'
  end.

(** The values [run_setup] reports when it runs to its end. *)
Definition all_progress : list Z := [11; 22; 33; 44; 55; 66; 77; 88; 100]%Z.

Definition is_progress (ev : event) : bool :=
  match ev with progress_signal _ => true | _ => false end.

Definition not_progress (ev : event) : bool := negb (is_progress ev).

(** [m] reports the values [s], in order, and stops reporting where it
    fails. *)
Definition reports {A} (m : M A) (s : list Z) : Prop :=
  (exists rest, progress_values (trace m) ++ rest = s)
  /\ (forall a, outcome m = Ok a -> progress_values (trace m) = s).

(** The errors [run_setup] and [download_gitignore] raise themselves. *)
Definition own_error (w : world) (self : app) (e : exn) : Prop :=
  e = already_exists w self \/ e = download_failed \/ e = invalid_type.

(** An error of [m] is one of those, or the error of a call [m] made. *)
Definition error_source (w : world) (self : app) {A} (m : M A) : Prop :=
  forall e, outcome m = Err e ->
    own_error w self e \/ exists c, In (Ext c) (trace m) /\ raises w c = Some e.

(** ** The output console *)

(** [OutputHighlighter._formats] as [_setup_formats] fills it, in
    insertion order: the level and the colour of its format. *)
Definition formats : list (pystr * pystr) :=
  [(py "ERROR", py "#FF5252"); (py "SUCCESS", py "#4CAF50"); (py "INFO", py "#FFFFFF")].

(** The loop of [highlightBlock] over the items of the dictionary: the
    call [setFormat(0, len(text), format)] it makes, if any. *)
Fixpoint highlight_with (items : list (pystr * pystr)) (text : pystr)
  : option (Z * Z * pystr) :=
  match items with
  | [] => None
  | (level, format) :: rest =>
      if startswith text level then Some (0%Z, Z.of_nat (List.length text), format)
      else highlight_with rest text
  end.

Definition highlightBlock (text : pystr) : option (Z * Z * pystr) :=
  highlight_with formats text.

(** The level prefix of a log line. *)
Definition has_level (text : pystr) : bool :=
  startswith text (py "ERROR: ") || startswith text (py "SUCCESS: ")
  || startswith text (py "INFO: ").

Definition leveled (ev : event) : bool :=
  match ev with output_signal text => has_level text | _ => true end.

(** ** The widgets *)

(** What the run changes in the window: the two buttons, the progress
    bar and the entries of the output console. *)
Record gui : Type := mk_gui {
  create_button_enabled : bool;
  cancel_button_enabled : bool;
  progress_bar_value : Z;
  output_text : list pystr
}.

(** The slot of [output_signal]. *)
Definition append_output (g : gui) (text : pystr) : gui :=
  mk_gui (create_button_enabled g) (cancel_button_enabled g) (progress_bar_value g)
         (output_text g ++ [text]).

(** The slot of [progress_signal]. *)
Definition update_progress (g : gui) (value : Z) : gui :=
  mk_gui (create_button_enabled g) (cancel_button_enabled g) value (output_text g).

(** The effect of one event on the widgets; the slots run in the order
    of the emissions. *)
Definition deliver (g : gui) (ev : event) : gui :=
  match ev with
  | output_signal text => append_output g text
  | progress_signal value => update_progress g value
  | create_button_setEnabled b =>
      mk_gui b (cancel_button_enabled g) (progress_bar_value g) (output_text g)
  | cancel_button_setEnabled b =>
      mk_gui (create_button_enabled g) b (progress_bar_value g) (output_text g)
  | progress_bar_setValue value =>
      mk_gui (create_button_enabled g) (cancel_button_enabled g) value (output_text g)
  | output_text_clear =>
      mk_gui (create_button_enabled g) (cancel_button_enabled g) (progress_bar_value g) []
  | Ext _ | message_warning _ _ | thread_start => g
  end.

Definition gui_after (g : gui) (tr : list event) : gui := fold_left deliver tr g.

(** Events that leave the buttons alone and reset neither the bar nor the console. *)
Definition plain_event (ev : event) : bool :=
  match ev with
  | create_button_setEnabled _ | cancel_button_setEnabled _
  | progress_bar_setValue _ | output_text_clear => false
  | _ => true
  end.

(** ** The arguments of the Dockerfile's [CMD] *)

Definition not_space (c : N) : bool := negb (isspace c).

(** A word: not empty, no whitespace in it. *)
Definition is_word (t : pystr) : Prop := t <> [] /\ forallb not_space t = true.

Definition dockerfile_base : pystr :=
  ln "FROM python:3.9-slim"
  ++ ln "WORKDIR /app"
  ++ ln "COPY requirements.txt ."
  ++ ln "RUN pip install --no-cache-dir -r requirements.txt"
  ++ ln "COPY . .".

(** * Properties *)

Unset Implicit Arguments.

(** ** The monad *)

Lemma bind_ret A B (a : A) (f : A -> M B) : bind (ret a) f = f a.
Proof. unfold bind, ret. destruct (f a); reflexivity. Qed.

Lemma bind_raise A B (e : exn) (f : A -> M B) : bind (raise e) f = raise e.
Proof. reflexivity. Qed.

Lemma bind_assoc A B C (m : M A) (f : A -> M B) (g : B -> M C) :
  bind (bind m f) g = bind m (fun a => bind (f a) g).
Proof.
  destruct m as [t [a|e]]; simpl; [|reflexivity].
  destruct (f a) as [t' [b|e]]; simpl; [|reflexivity].
  destruct (g b) as [t'' r]. rewrite app_assoc. reflexivity.
Qed.

Lemma bind_pre A B t (m : M A) (f : A -> M B) : bind (pre t m) f = pre t (bind m f).
Proof.
  destruct m as [t' [a|e]]; unfold pre; simpl; [|reflexivity].
  destruct (f a) as [t'' r]. simpl. rewrite app_assoc. reflexivity.
Qed.

Lemma pre_pre A t1 t2 (m : M A) : pre t1 (pre t2 m) = pre (t1 ++ t2) m.
Proof. unfold pre. simpl. rewrite app_assoc. reflexivity. Qed.

Lemma pre_nil A (m : M A) : pre [] m = m.
Proof. destruct m; reflexivity. Qed.

Lemma trace_pre A t (m : M A) : trace (pre t m) = t ++ trace m.
Proof. reflexivity. Qed.

Lemma outcome_pre A t (m : M A) : outcome (pre t m) = outcome m.
Proof. reflexivity. Qed.

Lemma try_except_pre A t (m : M A) handlers :
  try_except (pre t m) handlers = pre t (try_except m handlers).
Proof.
  destruct m as [t' [a|e]]; unfold pre; simpl; [reflexivity|].
  destruct (find_handler e handlers) as [[t'' r]|]; simpl; [|reflexivity].
  rewrite app_assoc. reflexivity.
Qed.

(** ** Scripts *)

Lemma perform_script w c : perform w c = run_script w [Ext c].
Proof. unfold perform. simpl. destruct (raises w c); reflexivity. Qed.

Lemma tell_script w ev : is_call ev = false -> tell ev = run_script w [ev].
Proof. destruct ev; simpl; intros H; try discriminate; reflexivity. Qed.

Lemma emit_script w text : emit text = run_script w [output_signal text].
Proof. reflexivity. Qed.

Lemma script_app w s1 s2 :
  bind (run_script w s1) (fun _ => run_script w s2) = run_script w (s1 ++ s2).
Proof.
  induction s1 as [|ev s1 IH]; simpl.
  - apply bind_ret.
  - destruct ev; try (rewrite bind_pre, IH; reflexivity).
    destruct (raises w c); [reflexivity|]. rewrite bind_pre, IH. reflexivity.
Qed.

Lemma script_app_bind w s1 s2 B (k : unit -> M B) :
  bind (run_script w s1) (fun _ => bind (run_script w s2) k)
  = bind (run_script w (s1 ++ s2)) k.
Proof. rewrite <- script_app, bind_assoc. reflexivity. Qed.

(** A script runs to its end exactly when none of its calls raises. *)
Lemma run_script_ok w s :
  (forall c, In (Ext c) s -> raises w c = None) -> run_script w s = (s, Ok tt).
Proof.
  induction s as [|ev s IH]; intros H; [reflexivity|].
  assert (IH' : run_script w s = (s, Ok tt)) by (apply IH; intros; apply H; right; assumption).
  destruct ev; simpl; rewrite ?IH'; try reflexivity.
  rewrite (H c) by (left; reflexivity). reflexivity.
Qed.

(** Otherwise it stops right after its first raising call. *)
Lemma run_script_cases w s :
  (run_script w s = (s, Ok tt) /\ forall c, In (Ext c) s -> raises w c = None)
  \/ exists p c e q,
       s = p ++ Ext c :: q /\ raises w c = Some e
       /\ (forall c', In (Ext c') p -> raises w c' = None)
       /\ run_script w s = (p ++ [Ext c], Err e).
Proof.
  induction s as [|ev s IH].
  - left. split; [reflexivity | intros c []].
  - assert (Hstep : forall ev', run_script w (ev' :: s) = pre [ev'] (run_script w s) ->
                    (forall c, ev' = Ext c -> raises w c = None) ->
            (run_script w (ev' :: s) = (ev' :: s, Ok tt)
             /\ forall c, In (Ext c) (ev' :: s) -> raises w c = None)
            \/ exists p c e q,
                 ev' :: s = p ++ Ext c :: q /\ raises w c = Some e
                 /\ (forall c', In (Ext c') p -> raises w c' = None)
                 /\ run_script w (ev' :: s) = (p ++ [Ext c], Err e)).
    { intros ev' Hrun Hev. rewrite Hrun.
      destruct IH as [[Hs Hall] | (p & c & e & q & Hsplit & Hc & Hp & Hs)].
      - left. rewrite Hs. split; [reflexivity|].
        intros c [Hc | Hc]; [apply Hev; assumption | apply Hall; assumption].
      - right. exists (ev' :: p), c, e, q. rewrite Hs, Hsplit.
        repeat split; try assumption.
        intros c' [Hc' | Hc']; [apply Hev; assumption | apply Hp; assumption]. }
    destruct ev; try (apply Hstep; [reflexivity | intros ? ?; discriminate]).
    destruct (raises w c) as [e|] eqn:Hc.
    + right. exists [], c, e, s. simpl. rewrite Hc. repeat split. intros c' [].
    + apply Hstep; [simpl; rewrite Hc; reflexivity|].
      intros c0 Hc0. injection Hc0 as <-. assumption.
Qed.

(** ** The methods as scripts *)

Ltac to_scripts w :=
  rewrite ?(perform_script w), ?(emit_script w);
  rewrite ?(tell_script w) by reflexivity;
  rewrite ?bind_assoc;
  repeat rewrite ?(script_app w), ?(script_app_bind w).

Lemma setup_basic_script w self :
  setup_basic_python_project w self = run_script w (basic_script w self).
Proof.
  unfold setup_basic_python_project, create_readme, create_docker_files, create_requirements.
  to_scripts w. reflexivity.
Qed.

Lemma setup_data_script w self :
  setup_data_analytics_project w self = run_script w (data_analytics_script w self).
Proof.
  unfold setup_data_analytics_project, create_readme, create_docker_files, create_requirements.
  to_scripts w. reflexivity.
Qed.

Lemma setup_fastapi_script w self :
  setup_fastapi_project w self = run_script w (fastapi_script w self).
Proof.
  unfold setup_fastapi_project, create_readme, create_docker_files, create_requirements.
  to_scripts w. reflexivity.
Qed.

Lemma run_setup_body_pipeline w self : run_setup_body w self = pipeline w self.
Proof.
  unfold run_setup_body, pipeline.
  rewrite setup_basic_script, setup_data_script, setup_fastapi_script.
  fold invalid_type. fold (select_template w self).
  change (if os_path_exists w (project_dir_of w self) then _ else ret tt)
    with (check_exists w self).
  unfold init_git, create_ruff_config, setup_vscode.
  remember (download_gitignore w) as fetch.
  remember (select_template w self) as template.
  remember (check_exists w self) as check.
  remember (install_dependencies w (os_path_join w (project_dir_of w self) [py ".venv"]))
    as install.
  remember (open_in_vscode w (project_dir_of w self)) as launch.
  to_scripts w.
  subst. reflexivity.
Qed.

(** ** Sequencing *)

Lemma bind_cases A B (m : M A) (f : A -> M B) :
  (exists a, outcome m = Ok a /\ bind m f = pre (trace m) (f a))
  \/ (exists e, outcome m = Err e /\ bind m f = (trace m, Err e)).
Proof.
  destruct m as [t [a|e]]; simpl.
  - left. exists a. split; [reflexivity|]. unfold pre. destruct (f a); reflexivity.
  - right. exists e. split; reflexivity.
Qed.

Lemma bind_ok A B (m : M A) (f : A -> M B) a :
  outcome m = Ok a -> bind m f = pre (trace m) (f a).
Proof.
  intros H. destruct (bind_cases A B m f) as [(a' & Ha & Hb) | (e & He & _)]; [|congruence].
  rewrite H in Ha. injection Ha as <-. assumption.
Qed.

Lemma bind_err A B (m : M A) (f : A -> M B) e :
  outcome m = Err e -> bind m f = (trace m, Err e).
Proof.
  intros H. destruct (bind_cases A B m f) as [(a' & Ha & _) | (e' & He & Hb)]; [congruence|].
  rewrite H in He. injection He as <-. assumption.
Qed.

Lemma bind_ok_inv A B (m : M A) (f : A -> M B) b :
  outcome (bind m f) = Ok b ->
  exists a, outcome m = Ok a /\ outcome (f a) = Ok b /\ bind m f = pre (trace m) (f a).
Proof.
  intros H. destruct (bind_cases A B m f) as [(a & Ha & Hb) | (e & He & Hb)].
  - exists a. rewrite Hb in H. auto.
  - rewrite Hb in H. discriminate.
Qed.

Lemma script_ok_inv w s :
  outcome (run_script w s) = Ok tt ->
  run_script w s = (s, Ok tt) /\ forall c, In (Ext c) s -> raises w c = None.
Proof.
  intros H. destruct (run_script_cases w s) as [Hok | (p & c & e & q & _ & _ & _ & Hs)].
  - assumption.
  - rewrite Hs in H. discriminate.
Qed.

(** The events of a script run are events of the script. *)
Lemma run_script_incl w s : incl (trace (run_script w s)) s.
Proof.
  destruct (run_script_cases w s) as [[Hs _] | (p & c & e & q & Hsplit & _ & _ & Hs)];
    rewrite Hs; simpl.
  - apply incl_refl.
  - rewrite Hsplit. intros x Hx. apply in_app_or in Hx. apply in_or_app.
    destruct Hx as [Hx | [<- | []]]; [left; assumption | right; left; reflexivity].
Qed.

(** ** Properties of all events of a run *)

Section AllEvents.

Variable P : event -> bool.

Lemma all_incl (l l' : list event) : incl l l' -> forallb P l' = true -> forallb P l = true.
Proof.
  intros Hi H. apply forallb_forall. intros x Hx.
  apply (proj1 (forallb_forall P l') H). apply Hi. assumption.
Qed.

Lemma all_script w s : forallb P s = true -> forallb P (trace (run_script w s)) = true.
Proof. apply all_incl, run_script_incl. Qed.

Lemma all_bind A B (m : M A) (f : A -> M B) :
  forallb P (trace m) = true ->
  (forall a, forallb P (trace (f a)) = true) ->
  forallb P (trace (bind m f)) = true.
Proof.
  intros Hm Hf. destruct (bind_cases A B m f) as [(a & _ & ->) | (e & _ & ->)].
  - rewrite trace_pre, forallb_app, Hm, Hf. reflexivity.
  - assumption.
Qed.

Lemma all_try A (m : M A) handlers :
  forallb P (trace m) = true ->
  (forall e h, find_handler e handlers = Some h -> forallb P (trace h) = true) ->
  forallb P (trace (try_except m handlers)) = true.
Proof.
  intros Hm Hh. destruct m as [t [a|e]]; simpl in *; [assumption|].
  destruct (find_handler e handlers) as [[t' r]|] eqn:Hf; simpl; [|assumption].
  rewrite forallb_app, Hm. apply (Hh e _ Hf).
Qed.

Lemma all_if A (b : bool) (m1 m2 : M A) :
  forallb P (trace m1) = true -> forallb P (trace m2) = true ->
  forallb P (trace (if b then m1 else m2)) = true.
Proof. destruct b; auto. Qed.

Lemma all_perform w c : P (Ext c) = true -> forallb P (trace (perform w c)) = true.
Proof. simpl. intros ->. reflexivity. Qed.

Lemma all_tell ev : P ev = true -> forallb P (trace (tell ev)) = true.
Proof. simpl. intros ->. reflexivity. Qed.

End AllEvents.

Lemma find_handler_one A (e : exn) c (h : exn -> M A) m :
  find_handler e [(c, h)] = Some m -> m = h e.
Proof. simpl. destruct (isinstance e c); congruence. Qed.

Lemma find_handler_two A (e : exn) c1 c2 (h1 h2 : exn -> M A) m :
  find_handler e [(c1, h1); (c2, h2)] = Some m -> m = h1 e \/ m = h2 e.
Proof.
  simpl. destruct (isinstance e c1); [left; congruence|].
  destruct (isinstance e c2); [right; congruence | discriminate].
Qed.

(** Proves [forallb P (trace m) = true] along the structure of [m]. *)
Ltac all_events :=
  repeat first
    [ apply all_bind; [|intros _]
    | apply all_script
    | apply all_if
    | apply all_perform
    | apply all_tell
    | apply all_try;
      [| intros ? ? Hfind;
         first [ apply find_handler_one in Hfind; subst
               | apply find_handler_two in Hfind; destruct Hfind; subst ] ] ];
  try reflexivity.

(** ** The shape of a run *)

Lemma pipeline_steps_1_2 w self :
  pipeline w self =
  steps_1_2 w self ;;
  download_gitignore w ;;
  run_script w vcs_lint_script ;;
  select_template w self ;;
  run_script w (editor_config_script w) ;;
  steps_8_9 w self.
Proof. unfold pipeline, steps_1_2, steps_8_9. rewrite !bind_assoc. reflexivity. Qed.

Lemma pipeline_steps_1_6 w self :
  pipeline w self =
  steps_1_6 w self ;; run_script w (editor_config_script w) ;; steps_8_9 w self.
Proof.
  rewrite pipeline_steps_1_2. unfold steps_1_6. rewrite !bind_assoc. reflexivity.
Qed.

Lemma pipeline_steps_1_7 w self : pipeline w self = steps_1_7 w self ;; steps_8_9 w self.
Proof. rewrite pipeline_steps_1_6. unfold steps_1_7. rewrite !bind_assoc. reflexivity. Qed.

Lemma run_setup_handler_events e : run_setup_handler e = (handler_events e, Ok tt).
Proof. reflexivity. Qed.

(** [run_setup]: the pipeline, and the handler when the pipeline raised. *)
Lemma run_setup_cases w self :
  (outcome (pipeline w self) = Ok tt /\ run_setup w self = pipeline w self)
  \/ (exists e, outcome (pipeline w self) = Err e
        /\ run_setup w self = (trace (pipeline w self) ++ handler_events e, Ok tt)).
Proof.
  unfold run_setup. rewrite run_setup_body_pipeline.
  destruct (pipeline w self) as [t [[]|e]]; simpl.
  - left. split; reflexivity.
  - right. exists e. split; reflexivity.
Qed.

Lemma create_project_blank w name_input current_index :
  strip name_input = [] ->
  create_project w name_input current_index =
  ([message_warning (py "Input Error") (py "Please enter a project name.")], Ok tt).
Proof. unfold create_project. simpl. intros ->. reflexivity. Qed.

Lemma create_project_named w name_input current_index :
  strip name_input <> [] ->
  create_project w name_input current_index =
  pre start_events (run_setup w (mk_app (strip name_input) (current_index + 1))).
Proof.
  unfold create_project. cbn [project_name]. intros H.
  destruct (strip name_input) as [|c s] eqn:Hs; [congruence|].
  unfold run_setup, try_except, pre, start_events.
  destruct (run_setup_body _ _) as [t [[]|e]]; reflexivity.
Qed.

(** ** Stripping *)

Lemma lstrip_blank s : forallb isspace s = true -> lstrip s = [].
Proof.
  induction s as [|c s IH]; simpl; [reflexivity|].
  destruct (isspace c); simpl; [assumption | discriminate].
Qed.

Lemma lstrip_nil_blank s : lstrip s = [] -> forallb isspace s = true.
Proof.
  induction s as [|c s IH]; simpl; [reflexivity|].
  destruct (isspace c); simpl; [assumption | discriminate].
Qed.

Lemma lstrip_head s c r : lstrip s = c :: r -> isspace c = false.
Proof.
  induction s as [|c' s IH]; simpl; [discriminate|].
  destruct (isspace c') eqn:Hc; [assumption|].
  intros H. injection H as <- _. assumption.
Qed.

Lemma lstrip_snoc s c : isspace c = false -> lstrip (s ++ [c]) = lstrip s ++ [c].
Proof.
  intros Hc. induction s as [|c' s IH]; simpl.
  - rewrite Hc. reflexivity.
  - destruct (isspace c'); [assumption | reflexivity].
Qed.

Lemma rstrip_cons c r : isspace c = false -> rstrip (c :: r) = c :: rstrip r.
Proof.
  intros Hc. unfold rstrip. simpl. rewrite (lstrip_snoc _ _ Hc), rev_app_distr. reflexivity.
Qed.

Lemma strip_blank s : forallb isspace s = true -> strip s = [].
Proof. intros H. unfold strip. rewrite (lstrip_blank _ H). reflexivity. Qed.

Lemma strip_nil_blank s : strip s = [] -> forallb isspace s = true.
Proof.
  unfold strip. intros H. apply lstrip_nil_blank.
  destruct (lstrip s) as [|c r] eqn:Hs; [reflexivity|].
  rewrite (rstrip_cons _ _ (lstrip_head _ _ _ Hs)) in H. discriminate.
Qed.

Lemma strip_not_blank s : forallb isspace s = false -> strip s <> [].
Proof. intros H Hs. rewrite (strip_nil_blank _ Hs) in H. discriminate. Qed.

Lemma lstrip_strip s : lstrip (strip s) = strip s.
Proof.
  unfold strip. destruct (lstrip s) as [|c r] eqn:Hs; [reflexivity|].
  pose proof (lstrip_head _ _ _ Hs) as Hc.
  rewrite (rstrip_cons _ _ Hc). simpl. rewrite Hc. reflexivity.
Qed.

Lemma lstrip_lstrip s : lstrip (lstrip s) = lstrip s.
Proof.
  destruct (lstrip s) as [|c r] eqn:Hs; [reflexivity|].
  simpl. rewrite (lstrip_head _ _ _ Hs). reflexivity.
Qed.

Lemma rstrip_rstrip s : rstrip (rstrip s) = rstrip s.
Proof. unfold rstrip. rewrite rev_involutive, lstrip_lstrip. reflexivity. Qed.

Lemma strip_strip s : strip (strip s) = strip s.
Proof.
  unfold strip at 1. rewrite lstrip_strip. unfold strip. apply rstrip_rstrip.
Qed.

(** ** The README, piece by piece *)

Lemma readme_content_pieces self run_command :
  readme_content self run_command =
  readme_intro (project_name self) run_command
  ++ docker_run_line (project_name self) run_command
  ++ readme_outro.
Proof.
  unfold readme_content, docker_run_line, docker_run_options, readme_intro, readme_outro.
  destruct (contains (py "uvicorn") run_command);
    [|destruct (contains (py "jupyter") run_command)];
    rewrite <- !app_assoc; reflexivity.
Qed.

(** ** C5: the Validator *)

(** C5.  For a name that is empty or all whitespace the run ends with the
    input warning, and for a name whose project directory already exists
    it ends with [FileExistsError]; in both cases the run makes no call to
    the file system, the network or another program. *)
Theorem validator_rejects_without_mutation
    (w : world) (name_input : pystr) (current_index : Z) :
  forallb isspace name_input = true
  \/ os_path_exists w (os_path_join w BASE_PATH [strip name_input]) = true ->
  ext_calls (trace (create_project w name_input current_index)) = []
  /\ (forallb isspace name_input = true ->
        create_project w name_input current_index =
        ([message_warning (py "Input Error") (py "Please enter a project name.")], Ok tt))
  /\ (forallb isspace name_input = false ->
        let self := mk_app (strip name_input) (current_index + 1) in
        run_setup_body w self = ([], Err (already_exists w self))
        /\ exn_type (already_exists w self) = FileExistsError
        /\ trace (create_project w name_input current_index) =
           start_events ++ handler_events (already_exists w self)).
Proof.
  intros H.
  destruct (forallb isspace name_input) eqn:Hblank.
  - rewrite (create_project_blank _ _ _ (strip_blank _ Hblank)).
    split; [reflexivity|]. split; [reflexivity | discriminate].
  - destruct H as [H | Hexists]; [discriminate|].
    rewrite (create_project_named _ _ _ (strip_not_blank _ Hblank)).
    set (self := mk_app (strip name_input) (current_index + 1)).
    assert (Hbody : run_setup_body w self = ([], Err (already_exists w self))).
    { rewrite run_setup_body_pipeline. unfold pipeline, check_exists.
      change (project_dir_of w self) with (os_path_join w BASE_PATH [strip name_input]).
      rewrite Hexists. reflexivity. }
    assert (Hrun : run_setup w self = (handler_events (already_exists w self), Ok tt)).
    { unfold run_setup. rewrite Hbody. reflexivity. }
    rewrite Hrun. split; [reflexivity|]. split; [discriminate|].
    intros _. split; [assumption|]. split; reflexivity.
Qed.

Lemma validator_rejects_without_mutation_witness :
  (forallb isspace (py "  	 ") = true
   \/ os_path_exists (calm_world []) (os_path_join (calm_world []) BASE_PATH [strip (py "  	 ")])
      = true)
  /\ ext_calls (trace (create_project (calm_world []) (py "  	 ") 0)) = []
  /\ (forallb isspace (py "demo") = true
      \/ os_path_exists (occupied_world (fun _ => true))
           (os_path_join (occupied_world (fun _ => true)) BASE_PATH [strip (py "demo")]) = true)
  /\ ext_calls (trace (create_project (occupied_world (fun _ => true)) (py "demo") 2)) = [].
Proof.
  split; [left; reflexivity|].
  split; [apply (validator_rejects_without_mutation (calm_world []) (py "  	 ") 0);
          left; reflexivity|].
  split; [right; reflexivity|].
  apply (validator_rejects_without_mutation (occupied_world (fun _ => true)) (py "demo") 2).
  right. reflexivity.
Defined.

(** ** C8: the README depends on the name and the run command only *)

(** C8.  For a fixed project name and run command the README generator
    writes the same text whatever the host and the project type, and a
    second invocation writes that same text again. *)
Theorem readme_depends_on_name_and_command
    (w1 w2 : world) (self1 self2 : app) (run_command : pystr) :
  project_name self1 = project_name self2 ->
  readme_content self1 run_command = readme_content self2 run_command
  /\ trace (create_readme w1 self1 run_command) = trace (create_readme w2 self2 run_command)
  /\ forall ev,
       In ev (trace (create_readme w1 self1 run_command ;;
                     create_readme w1 self1 run_command)) ->
       ev = Ext (file_write (py "README.md") (readme_content self2 run_command)).
Proof.
  intros Hname.
  assert (Hc : readme_content self1 run_command = readme_content self2 run_command).
  { rewrite !readme_content_pieces, Hname. reflexivity. }
  split; [assumption|]. split.
  - unfold create_readme. simpl. rewrite Hc. reflexivity.
  - intros ev. unfold create_readme. rewrite (perform_script w1), script_app, <- Hc.
    intros Hin. apply run_script_incl in Hin. simpl in Hin.
    destruct Hin as [<- | [<- | []]]; reflexivity.
Qed.

Lemma readme_depends_on_name_and_command_witness :
  project_name (mk_app (py "demo") 1) = project_name (mk_app (py "demo") 3)
  /\ readme_content (mk_app (py "demo") 1) (py "python app/main.py")
     = readme_content (mk_app (py "demo") 3) (py "python app/main.py").
Proof.
  split; [reflexivity|].
  apply (readme_depends_on_name_and_command (calm_world []) (status_world 404 [])
           (mk_app (py "demo") 1) (mk_app (py "demo") 3) (py "python app/main.py")).
  reflexivity.
Defined.

(** ** C9: the block of test packages *)

(** C9.  In the dependency list of each of the three project types the
    six test packages form one contiguous block, in the same order:
    nothing around it for Basic, [jupyter] before it for DataAnalytics,
    [fastapi] and [uvicorn] before it and [httpx] after it for ApiService. *)
Theorem test_packages_block :
  test_packages = [py "pytest"; py "pytest-cov"; py "pytest-mock"; py "pytest-xdist";
                   py "pytest-asyncio"; py "pytest-profiling"]
  /\ basic_packages = [] ++ test_packages ++ []
  /\ data_analytics_packages = [py "jupyter"] ++ test_packages ++ []
  /\ fastapi_packages = [py "fastapi"; py "uvicorn"] ++ test_packages ++ [py "httpx"].
Proof. repeat split. Qed.

(** ** Fail-fast runs *)

Lemma fail_fast_script w s : fail_fast w (run_script w s).
Proof.
  intros c e Hin Hc.
  destruct (run_script_cases w s) as [[Hs Hall] | (p & c' & e' & q & _ & Hc' & Hp & Hs)];
    rewrite Hs in *; simpl in Hin.
  - rewrite (Hall c Hin) in Hc. discriminate.
  - apply in_app_or in Hin. destruct Hin as [Hin | [Heq | []]].
    + rewrite (Hp c Hin) in Hc. discriminate.
    + injection Heq as ->. rewrite Hc in Hc'. injection Hc' as <-. exists p. reflexivity.
Qed.

Lemma fail_fast_bind w A B (m : M A) (f : A -> M B) :
  fail_fast w m -> (forall a, fail_fast w (f a)) -> fail_fast w (bind m f).
Proof.
  intros Hm Hf c e Hin Hc.
  destruct (bind_cases A B m f) as [(a & Ha & Hb) | (e' & He & Hb)]; rewrite Hb in *.
  - rewrite trace_pre in Hin. apply in_app_or in Hin. destruct Hin as [Hin | Hin].
    + destruct (Hm c e Hin Hc) as [p Hp]. rewrite Hp in Ha. discriminate.
    + destruct (Hf a c e Hin Hc) as [p Hp]. exists (trace m ++ p).
      rewrite Hp. unfold pre. simpl. rewrite app_assoc. reflexivity.
  - simpl in Hin. destruct (Hm c e Hin Hc) as [p Hp]. exists p.
    rewrite Hp in *. simpl in *. congruence.
Qed.

Lemma fail_fast_raise w A e : fail_fast w (@raise A e).
Proof. intros c e' []. Qed.

Lemma fail_fast_ret w A a : fail_fast w (@ret A a).
Proof. intros c e' []. Qed.

Lemma fail_fast_if w A (b : bool) (m1 m2 : M A) :
  fail_fast w m1 -> fail_fast w m2 -> fail_fast w (if b then m1 else m2).
Proof. destruct b; auto. Qed.

Ltac fail_fast :=
  repeat first
    [ match goal with |- fail_fast _ (bind _ _) => apply fail_fast_bind; [|intros _] end
    | apply fail_fast_script
    | apply fail_fast_if
    | apply fail_fast_raise
    | apply fail_fast_ret ].

(** ** The download *)

Lemma download_gitignore_200 w :
  fst (http_response w gitignore_url) = 200%Z ->
  download_gitignore w = run_script w (fetch_events w).
Proof.
  intros H. unfold download_gitignore. cbv zeta. rewrite H. simpl Z.eqb. cbv iota.
  to_scripts w. reflexivity.
Qed.

Lemma download_gitignore_other w :
  fst (http_response w gitignore_url) <> 200%Z ->
  download_gitignore w = run_script w [Ext (requests_get gitignore_url)] ;; raise download_failed.
Proof.
  intros H. unfold download_gitignore. cbv zeta.
  apply Z.eqb_neq in H. rewrite H. rewrite (perform_script w). reflexivity.
Qed.

Lemma download_gitignore_ok w :
  outcome (download_gitignore w) = Ok tt ->
  download_gitignore w = (fetch_events w, Ok tt)
  /\ fst (http_response w gitignore_url) = 200%Z.
Proof.
  intros H. destruct (Z.eq_dec (fst (http_response w gitignore_url)) 200) as [E | E].
  - rewrite (download_gitignore_200 w E) in *. split; [|assumption].
    apply script_ok_inv. assumption.
  - rewrite (download_gitignore_other w E) in H.
    apply bind_ok_inv in H. destruct H as (a & _ & H & _). discriminate.
Qed.

Lemma fail_fast_download w : fail_fast w (download_gitignore w).
Proof.
  destruct (Z.eq_dec (fst (http_response w gitignore_url)) 200) as [E | E].
  - rewrite (download_gitignore_200 w E). fail_fast.
  - rewrite (download_gitignore_other w E). fail_fast.
Qed.

(** ** Steps 1 to 7 *)

Lemma steps_1_2_ok w self :
  outcome (steps_1_2 w self) = Ok tt ->
  steps_1_2 w self = (scaffold_script w self, Ok tt)
  /\ os_path_exists w (project_dir_of w self) = false.
Proof.
  unfold steps_1_2, check_exists.
  destruct (os_path_exists w (project_dir_of w self)); [discriminate|].
  rewrite bind_ret. intros H. split; [|reflexivity]. apply script_ok_inv. assumption.
Qed.

Lemma select_template_ok w self :
  outcome (select_template w self) = Ok tt ->
  select_template w self = (template_script w self, Ok tt)
  /\ (project_type self = 1 \/ project_type self = 2 \/ project_type self = 3)%Z.
Proof.
  unfold select_template, template_script.
  destruct (Z.eqb_spec (project_type self) 1);
    [|destruct (Z.eqb_spec (project_type self) 2);
      [|destruct (Z.eqb_spec (project_type self) 3); [|discriminate]]];
    (intros H; split; [apply script_ok_inv; assumption | tauto]).
Qed.

Lemma steps_1_6_ok w self :
  outcome (steps_1_6 w self) = Ok tt ->
  steps_1_6 w self = (events_1_6 w self, Ok tt)
  /\ os_path_exists w (project_dir_of w self) = false
  /\ fst (http_response w gitignore_url) = 200%Z
  /\ (project_type self = 1 \/ project_type self = 2 \/ project_type self = 3)%Z.
Proof.
  unfold steps_1_6. intros H.
  apply bind_ok_inv in H. destruct H as ([] & H1 & H & E1).
  apply bind_ok_inv in H. destruct H as ([] & H2 & H & E2).
  apply bind_ok_inv in H. destruct H as ([] & H3 & H4 & E3).
  apply steps_1_2_ok in H1. destruct H1 as [H1 Hex].
  apply download_gitignore_ok in H2. destruct H2 as [H2 Hst].
  apply script_ok_inv in H3. destruct H3 as [H3 _].
  apply select_template_ok in H4. destruct H4 as [H4 Hty].
  split; [|tauto].
  rewrite E1, E2, E3, H1, H2, H3, H4. unfold pre, events_1_6. simpl trace. simpl outcome.
  reflexivity.
Qed.

Lemma steps_1_7_ok w self :
  outcome (steps_1_7 w self) = Ok tt ->
  steps_1_7 w self = (events_1_7 w self, Ok tt)
  /\ os_path_exists w (project_dir_of w self) = false
  /\ fst (http_response w gitignore_url) = 200%Z
  /\ (project_type self = 1 \/ project_type self = 2 \/ project_type self = 3)%Z.
Proof.
  unfold steps_1_7. intros H.
  apply bind_ok_inv in H. destruct H as ([] & H1 & H2 & E1).
  apply steps_1_6_ok in H1. destruct H1 as [H1 Hrest].
  apply script_ok_inv in H2. destruct H2 as [H2 _].
  split; [|assumption].
  rewrite E1, H1, H2. reflexivity.
Qed.

Lemma fail_fast_steps_1_7 w self : fail_fast w (steps_1_7 w self).
Proof.
  unfold steps_1_7, steps_1_6, steps_1_2, check_exists, select_template.
  repeat first [ apply fail_fast_download | progress fail_fast ].
Qed.

(** Steps 1 to 7 contain no call of steps 8 and 9. *)
Lemma steps_1_7_no_later_call w self :
  no_call is_pip_install (trace (steps_1_7 w self)) = true
  /\ no_call is_launch (trace (steps_1_7 w self)) = true.
Proof.
  unfold steps_1_7, steps_1_6, steps_1_2, check_exists, select_template, download_gitignore.
  split; unfold no_call; all_events.
Qed.

Lemma no_call_In p tr c : no_call p tr = true -> In (Ext c) tr -> p c = false.
Proof.
  unfold no_call. intros H Hin.
  apply (proj1 (forallb_forall _ tr) H) in Hin. apply negb_true_iff. assumption.
Qed.

(** Steps 8 and 9 call the package manager and the editor, nothing else. *)
Lemma steps_8_9_calls w self c :
  In (Ext c) (trace (steps_8_9 w self)) -> is_pip_install c = true \/ is_launch c = true.
Proof.
  assert (H : forallb (fun ev => match ev with
                                 | Ext c => is_pip_install c || is_launch c
                                 | _ => true
                                 end) (trace (steps_8_9 w self)) = true).
  { unfold steps_8_9, install_dependencies, open_in_vscode. all_events. }
  intros Hin. apply (proj1 (forallb_forall _ _) H) in Hin. apply orb_true_iff. assumption.
Qed.

(** ** Runs of [run_setup] and [create_project] *)

Lemma run_setup_trace w self :
  trace (run_setup w self) =
  trace (pipeline w self)
  ++ match outcome (pipeline w self) with Ok _ => [] | Err e => handler_events e end.
Proof.
  destruct (run_setup_cases w self) as [[Ho ->] | (e & Ho & ->)]; rewrite Ho.
  - rewrite app_nil_r. reflexivity.
  - reflexivity.
Qed.

Lemma create_project_trace w name_input current_index :
  strip name_input <> [] ->
  trace (create_project w name_input current_index) =
  start_events
  ++ trace (pipeline w (submitted name_input current_index))
  ++ match outcome (pipeline w (submitted name_input current_index)) with
     | Ok _ => []
     | Err e => handler_events e
     end.
Proof.
  intros H. rewrite (create_project_named w _ _ H), trace_pre, run_setup_trace. reflexivity.
Qed.

(** A call made by [create_project] is made by the pipeline. *)
Lemma create_project_call w name_input current_index c :
  In (Ext c) (trace (create_project w name_input current_index)) ->
  strip name_input <> []
  /\ In (Ext c) (trace (pipeline w (submitted name_input current_index))).
Proof.
  intros Hin.
  destruct (strip name_input) as [|x s] eqn:Hs.
  - rewrite (create_project_blank w _ _ Hs) in Hin.
    destruct Hin as [Hin | []]. discriminate.
  - assert (Hne : strip name_input <> []) by (rewrite Hs; discriminate).
    split; [rewrite <- Hs; assumption|].
    rewrite (create_project_trace w _ _ Hne) in Hin.
    apply in_app_or in Hin. destruct Hin as [Hin | Hin].
    + simpl in Hin. repeat destruct Hin as [Hin | Hin]; try discriminate. destruct Hin.
    + apply in_app_or in Hin. destruct Hin as [Hin | Hin]; [assumption|].
      destruct (outcome (pipeline w (submitted name_input current_index))); simpl in Hin.
      * destruct Hin.
      * repeat destruct Hin as [Hin | Hin]; try discriminate. destruct Hin.
Qed.

(** A script run begins with the script's first call. *)
Lemma run_script_head w c s : exists rest, trace (run_script w (Ext c :: s)) = Ext c :: rest.
Proof. simpl. destruct (raises w c); eexists; reflexivity. Qed.

(** Any call of steps 1 to 7 that raises ends the pipeline on the spot. *)
Lemma pipeline_fail_fast w self c e :
  In (Ext c) (trace (pipeline w self)) -> raises w c = Some e ->
  is_pip_install c = false -> is_launch c = false ->
  exists p, pipeline w self = (p ++ [Ext c], Err e)
            /\ steps_1_7 w self = (p ++ [Ext c], Err e).
Proof.
  intros Hin Hc Hpip Hlaunch. rewrite pipeline_steps_1_7 in *.
  destruct (bind_cases _ _ (steps_1_7 w self) (fun _ => steps_8_9 w self))
    as [(a & Ha & Hb) | (e' & He & Hb)]; rewrite Hb in *.
  - rewrite trace_pre in Hin. apply in_app_or in Hin. destruct Hin as [Hin | Hin].
    + destruct (fail_fast_steps_1_7 w self c e Hin Hc) as [p Hp].
      rewrite Hp in Ha. discriminate.
    + apply steps_8_9_calls in Hin. destruct Hin; congruence.
  - simpl in Hin. destruct (fail_fast_steps_1_7 w self c e Hin Hc) as [p Hp].
    exists p. rewrite Hp in *. simpl in He. injection He as <-. split; reflexivity.
Qed.

(** ** Steps 8 and 9 *)

Lemma install_dependencies_caught w venv_dir e :
  raises w (pip_install w venv_dir) = Some e -> exn_type e = CalledProcessError ->
  install_dependencies w venv_dir =
  ([output_signal (py "INFO: Installing dependencies...");
    Ext (pip_install w venv_dir);
    output_signal (py "ERROR: Failed to install dependencies: " ++ exn_str e)], Ok tt).
Proof.
  intros Hc He. unfold install_dependencies, perform. rewrite Hc.
  cbn [bind try_except find_handler emit tell List.app]. unfold isinstance. rewrite He.
  reflexivity.
Qed.

Lemma open_in_vscode_caught w project_dir :
  launch_caught w project_dir = true ->
  exists line, open_in_vscode w project_dir
               = ([Ext (launch_editor project_dir); output_signal line], Ok tt).
Proof.
  unfold launch_caught, open_in_vscode, perform.
  destruct (raises w (launch_editor project_dir)) as [e|];
    cbn [bind try_except find_handler emit tell List.app].
  - destruct (isinstance e FileNotFoundError); cbn [orb]; [intros _; eexists; reflexivity|].
    intros ->. eexists; reflexivity.
  - intros _. eexists; reflexivity.
Qed.

Lemma open_in_vscode_uncaught w project_dir :
  launch_caught w project_dir = false ->
  exists e, raises w (launch_editor project_dir) = Some e
            /\ open_in_vscode w project_dir = ([Ext (launch_editor project_dir)], Err e).
Proof.
  unfold launch_caught, open_in_vscode, perform.
  destruct (raises w (launch_editor project_dir)) as [e|]; [|discriminate].
  cbn [bind try_except find_handler emit tell List.app].
  intros H. apply orb_false_iff in H. destruct H as [-> ->]. exists e. split; reflexivity.
Qed.

(** The last two steps, from the launcher on. *)
Lemma launch_and_finish w project_dir :
  exists rest out,
    (open_in_vscode w project_dir ;; run_script w finish_script)
    = (Ext (launch_editor project_dir) :: rest, out)
    /\ (launch_caught w project_dir = true ->
          out = Ok tt /\ exists line, rest = output_signal line :: finish_script)
    /\ (launch_caught w project_dir = false -> exists e, out = Err e /\ rest = []).
Proof.
  destruct (launch_caught w project_dir) eqn:Hl.
  - destruct (open_in_vscode_caught w project_dir Hl) as [line ->].
    exists (output_signal line :: finish_script), (Ok tt).
    split; [reflexivity|]. split; [|discriminate].
    intros _. split; [reflexivity|]. exists line. reflexivity.
  - destruct (open_in_vscode_uncaught w project_dir Hl) as (e & _ & ->).
    exists [], (Err e). split; [reflexivity|]. split; [discriminate|].
    intros _. exists e. split; reflexivity.
Qed.

Lemma bind_trace_prefix A B (m : M A) (f : A -> M B) :
  exists rest, trace (bind m f) = trace m ++ rest.
Proof.
  destruct (bind_cases A B m f) as [(a & _ & ->) | (e & _ & ->)].
  - exists (trace (f a)). reflexivity.
  - exists []. simpl. rewrite app_nil_r. reflexivity.
Qed.

Lemma bind_done A B t (a : A) (f : A -> M B) : bind (t, Ok a) f = pre t (f a).
Proof. apply bind_ok. reflexivity. Qed.

Lemma no_call_app p l1 l2 : no_call p (l1 ++ l2) = no_call p l1 && no_call p l2.
Proof. apply forallb_app. Qed.


Lemma steps_8_9_after_pip_failure w self e :
  raises w (pip_install w (venv_dir_of w self)) = Some e ->
  exn_type e = CalledProcessError ->
  exists rest out,
    steps_8_9 w self =
    ([output_signal (py "INFO: Installing dependencies...");
      Ext (pip_install w (venv_dir_of w self));
      output_signal (py "ERROR: Failed to install dependencies: " ++ exn_str e);
      progress_signal 88;
      Ext (launch_editor (project_dir_of w self))] ++ rest, out)
    /\ (launch_caught w (project_dir_of w self) = true ->
          out = Ok tt /\ exists line, rest = output_signal line :: finish_script)
    /\ (launch_caught w (project_dir_of w self) = false ->
          exists e', out = Err e' /\ rest = []).
Proof.
  intros Hc He. unfold steps_8_9.
  rewrite (install_dependencies_caught w _ e Hc He).
  destruct (launch_and_finish w (project_dir_of w self)) as (rest & out & Hrun & Hrest).
  exists rest, out. split; [|assumption].
  rewrite bind_done.
  change (run_script w [progress_signal 88]) with ([progress_signal 88], @Ok unit tt).
  rewrite bind_done, Hrun. reflexivity.
Qed.

(** ** C6: a failing install does not stop the run *)

(** C6.  In every run in which the package manager is invoked and exits
    with a non-zero status ([subprocess.run] raises [CalledProcessError]),
    the seven steps before it have completed, the failure is logged as an
    ERROR line, and the Editor Launcher is invoked afterwards: all nine
    steps are attempted.  When the launcher's outcome is one
    [open_in_vscode] handles, [run_setup]'s [try] block runs to its end. *)
Theorem installer_failure_is_not_fatal
    (w : world) (name_input : pystr) (current_index : Z) (e : exn) :
  In (Ext (pip_install w (venv_dir_of w (submitted name_input current_index))))
     (trace (create_project w name_input current_index)) ->
  raises w (pip_install w (venv_dir_of w (submitted name_input current_index))) = Some e ->
  exn_type e = CalledProcessError ->
  exists rest,
    trace (create_project w name_input current_index) =
    start_events
    ++ events_1_7 w (submitted name_input current_index)
    ++ [output_signal (py "INFO: Installing dependencies...");
        Ext (pip_install w (venv_dir_of w (submitted name_input current_index)));
        output_signal (py "ERROR: Failed to install dependencies: " ++ exn_str e);
        progress_signal 88;
        Ext (launch_editor (project_dir_of w (submitted name_input current_index)))]
    ++ rest
    /\ (launch_caught w (project_dir_of w (submitted name_input current_index)) = true ->
          outcome (run_setup_body w (submitted name_input current_index)) = Ok tt
          /\ exists line, rest = output_signal line :: finish_script).
Proof.
  intros Hin Hc He. set (self := submitted name_input current_index) in *.
  apply create_project_call in Hin. destruct Hin as [Hne Hin]. fold self in Hin.
  rewrite (create_project_trace w _ _ Hne), run_setup_body_pipeline. fold self.
  rewrite pipeline_steps_1_7 in *.
  destruct (bind_cases _ _ (steps_1_7 w self) (fun _ => steps_8_9 w self))
    as [([] & Ha & Hb) | (e' & He' & Hb)]; rewrite Hb in *.
  - destruct (steps_1_7_ok w self Ha) as [H17 _].
    destruct (steps_8_9_after_pip_failure w self e Hc He) as (rest & out & H89 & Hyes & Hno).
    rewrite H17, H89. unfold pre. cbn [trace outcome fst snd].
    destruct (launch_caught w (project_dir_of w self)).
    + destruct (Hyes eq_refl) as [-> [line ->]].
      exists (output_signal line :: finish_script).
      split; [rewrite app_nil_r; reflexivity|].
      intros _. split; [reflexivity|]. exists line. reflexivity.
    + destruct (Hno eq_refl) as (e' & -> & ->).
      exists (handler_events e'). split; [|discriminate].
      rewrite app_nil_r, <- !app_assoc. reflexivity.
  - simpl in Hin.
    apply (no_call_In _ _ _ (proj1 (steps_1_7_no_later_call w self))) in Hin. discriminate.
Qed.

Lemma installer_failure_is_not_fatal_witness :
  In (Ext (pip_install pip_fails_world (venv_dir_of pip_fails_world (submitted (py "demo") 0))))
     (trace (create_project pip_fails_world (py "demo") 0))
  /\ raises pip_fails_world
       (pip_install pip_fails_world (venv_dir_of pip_fails_world (submitted (py "demo") 0)))
     = Some pip_exit_1
  /\ exn_type pip_exit_1 = CalledProcessError
  /\ exists rest,
       trace (create_project pip_fails_world (py "demo") 0) =
       start_events
       ++ events_1_7 pip_fails_world (submitted (py "demo") 0)
       ++ [output_signal (py "INFO: Installing dependencies...");
           Ext (pip_install pip_fails_world
                  (venv_dir_of pip_fails_world (submitted (py "demo") 0)));
           output_signal (py "ERROR: Failed to install dependencies: " ++ exn_str pip_exit_1);
           progress_signal 88;
           Ext (launch_editor (project_dir_of pip_fails_world (submitted (py "demo") 0)))]
       ++ rest
       /\ (launch_caught pip_fails_world
             (project_dir_of pip_fails_world (submitted (py "demo") 0)) = true ->
           outcome (run_setup_body pip_fails_world (submitted (py "demo") 0)) = Ok tt
           /\ exists line, rest = output_signal line :: finish_script).
Proof.
  assert (Hin : In (Ext (pip_install pip_fails_world
                           (venv_dir_of pip_fails_world (submitted (py "demo") 0))))
                   (trace (create_project pip_fails_world (py "demo") 0))).
  { vm_compute. repeat first [ left; reflexivity | right ]. }
  split; [exact Hin|]. split; [reflexivity|]. split; [reflexivity|].
  apply (installer_failure_is_not_fatal pip_fails_world (py "demo") 0 pip_exit_1 Hin);
    reflexivity.
Defined.

(** ** C3: the Asset Fetcher *)






(** ** C2: a failure while the editor configuration is written *)

(** C2, as the claim states it, fails: on a host where writing
    [.vscode/settings.json] raises [OSError], the write is attempted and
    raises, the [try] block of [run_setup] ends with that error, and
    neither the Dependency Installer nor the Editor Launcher is invoked. *)
Lemma editor_config_failure_counterexample :
  In (Ext (write_settings full_disk_world))
     (trace (create_project full_disk_world (py "demo") 0))
  /\ raises full_disk_world (write_settings full_disk_world) = Some disk_full
  /\ outcome (run_setup_body full_disk_world (submitted (py "demo") 0)) = Err disk_full
  /\ ~ In (Ext (pip_install full_disk_world
                  (venv_dir_of full_disk_world (submitted (py "demo") 0))))
          (trace (create_project full_disk_world (py "demo") 0))
  /\ ~ In (Ext (launch_editor (project_dir_of full_disk_world (submitted (py "demo") 0))))
          (trace (create_project full_disk_world (py "demo") 0)).
Proof.
  split; [vm_compute; repeat first [ left; reflexivity | right ]|].
  split; [reflexivity|]. split; [vm_compute; reflexivity|].
  split; intros H.
  - apply (no_call_In is_pip_install) in H; [vm_compute in H; discriminate|].
    vm_compute. reflexivity.
  - apply (no_call_In is_launch) in H; [vm_compute in H; discriminate|].
    vm_compute. reflexivity.
Qed.

(** C2, amended.  In every run in which a call of the Editor Config
    Writer (creating [.vscode] or writing [settings.json]) raises, the
    error is not handled in the step: the [try] block of [run_setup] ends
    at that call with that error, the handler of [run_setup] logs it as
    an [ERROR:] line and re-enables the buttons, and the run invokes
    neither the Dependency Installer nor the Editor Launcher. *)
Theorem editor_config_failure_aborts
    (w : world) (name_input : pystr) (current_index : Z) (c : call) (e : exn) :
  c = os_makedirs (vscode_dir w) true \/ c = write_settings w ->
  In (Ext c) (trace (create_project w name_input current_index)) ->
  raises w c = Some e ->
  exists p,
    run_setup_body w (submitted name_input current_index) = (p ++ [Ext c], Err e)
    /\ trace (create_project w name_input current_index) =
       start_events ++ p ++ [Ext c]
       ++ [output_signal (py "ERROR: " ++ exn_str e);
           create_button_setEnabled true; cancel_button_setEnabled true]
    /\ no_call is_pip_install (trace (create_project w name_input current_index)) = true
    /\ no_call is_launch (trace (create_project w name_input current_index)) = true.
Proof.
  intros Hc Hin He. set (self := submitted name_input current_index).
  apply create_project_call in Hin. destruct Hin as [Hne Hin]. fold self in Hin.
  assert (Hkind : is_pip_install c = false /\ is_launch c = false)
    by (destruct Hc; subst c; split; reflexivity).
  destruct (pipeline_fail_fast w self c e Hin He (proj1 Hkind) (proj2 Hkind))
    as (p & Hp & H17).
  pose proof (steps_1_7_no_later_call w self) as [Hpip Hlaunch].
  rewrite H17 in Hpip, Hlaunch. cbn [trace fst] in Hpip, Hlaunch.
  exists p. rewrite (create_project_trace w _ _ Hne), run_setup_body_pipeline. fold self.
  rewrite Hp. cbn [trace outcome fst snd]. fold (handler_events e).
  split; [reflexivity|]. split; [rewrite <- !app_assoc; reflexivity|].
  rewrite no_call_app in Hpip, Hlaunch.
  split; rewrite !no_call_app; [rewrite Hpip | rewrite Hlaunch]; reflexivity.
Qed.

Lemma editor_config_failure_aborts_witness :
  exists p,
    run_setup_body full_disk_world (submitted (py "demo") 0)
    = (p ++ [Ext (write_settings full_disk_world)], Err disk_full)
    /\ trace (create_project full_disk_world (py "demo") 0) =
       start_events ++ p ++ [Ext (write_settings full_disk_world)]
       ++ [output_signal (py "ERROR: " ++ exn_str disk_full);
           create_button_setEnabled true; cancel_button_setEnabled true]
    /\ no_call is_pip_install (trace (create_project full_disk_world (py "demo") 0)) = true
    /\ no_call is_launch (trace (create_project full_disk_world (py "demo") 0)) = true.
Proof.
  apply (editor_config_failure_aborts full_disk_world (py "demo") 0
           (write_settings full_disk_world) disk_full).
  - right. reflexivity.
  - vm_compute. repeat first [ left; reflexivity | right ].
  - reflexivity.
Defined.

(** ** Runs in which the Template Generator reports success *)

Lemma steps_1_6_split w self : steps_1_6 w self = steps_1_5 w self ;; select_template w self.
Proof. unfold steps_1_6, steps_1_5. rewrite !bind_assoc. reflexivity. Qed.

Lemma template_done_app l1 l2 :
  template_done (l1 ++ l2) -> template_done l1 \/ template_done l2.
Proof.
  unfold template_done. intros [H | [H | H]]; apply in_app_or in H; tauto.
Qed.

Lemma not_template_done tr :
  forallb not_template_success tr = true -> ~ template_done tr.
Proof.
  intros Hall [H | [H | H]];
    apply (proj1 (forallb_forall _ tr) Hall) in H; vm_compute in H; discriminate.
Qed.

(** A script that ends with a report and fails has failed before the report. *)
Lemma failed_script_front (P : event -> bool) w s ev :
  is_call ev = false -> forallb P s = true ->
  outcome (run_script w (s ++ [ev])) <> Ok tt ->
  forallb P (trace (run_script w (s ++ [ev]))) = true.
Proof.
  intros Hev Hs Hfail. rewrite <- script_app in *.
  destruct (bind_cases _ _ (run_script w s) (fun _ => run_script w [ev]))
    as [(a & _ & Hb) | (e & _ & Hb)]; rewrite Hb in *.
  - exfalso. apply Hfail. rewrite outcome_pre, <- (tell_script w ev Hev). reflexivity.
  - apply all_script. assumption.
Qed.

Lemma failed_template_quiet w self :
  outcome (select_template w self) <> Ok tt ->
  forallb not_template_success (trace (select_template w self)) = true.
Proof.
  unfold select_template.
  destruct (project_type self =? 1)%Z;
    [|destruct (project_type self =? 2)%Z; [|destruct (project_type self =? 3)%Z]];
    intros Hfail; [| | |reflexivity].
  - apply (failed_script_front not_template_success w
             (removelast (basic_script w self))
             (output_signal (py "SUCCESS: Basic Python project set up."))
             eq_refl eq_refl Hfail).
  - apply (failed_script_front not_template_success w
             (removelast (data_analytics_script w self))
             (output_signal (py "SUCCESS: Data analytics project set up."))
             eq_refl eq_refl Hfail).
  - apply (failed_script_front not_template_success w
             (removelast (fastapi_script w self))
             (output_signal (py "SUCCESS: FastAPI project set up."))
             eq_refl eq_refl Hfail).
Qed.

Lemma steps_1_5_quiet w self :
  forallb not_template_success (trace (steps_1_5 w self)) = true.
Proof. unfold steps_1_5, steps_1_2, check_exists, download_gitignore. all_events. Qed.

Lemma failed_steps_1_6_quiet w self :
  outcome (steps_1_6 w self) <> Ok tt ->
  forallb not_template_success (trace (steps_1_6 w self)) = true.
Proof.
  rewrite steps_1_6_split. intros Hfail.
  destruct (bind_cases _ _ (steps_1_5 w self) (fun _ => select_template w self))
    as [(a & _ & Hb) | (e & _ & Hb)]; rewrite Hb in *.
  - rewrite trace_pre, forallb_app, steps_1_5_quiet. apply failed_template_quiet.
    rewrite outcome_pre in Hfail. assumption.
  - apply steps_1_5_quiet.
Qed.

Lemma template_done_pipeline w self :
  template_done (trace (pipeline w self)) -> outcome (steps_1_6 w self) = Ok tt.
Proof.
  intros Hdone. destruct (outcome (steps_1_6 w self)) as [[]|e] eqn:Ho; [reflexivity|].
  exfalso. revert Hdone. apply not_template_done.
  rewrite pipeline_steps_1_6, (bind_err _ _ _ _ e Ho).
  apply failed_steps_1_6_quiet. rewrite Ho. discriminate.
Qed.

(** When the Template Generator has reported success, the run has made
    the steps 1 to 6 in full. *)
Lemma template_completed w name_input current_index :
  template_done (trace (create_project w name_input current_index)) ->
  strip name_input <> []
  /\ os_path_exists w (project_dir_of w (submitted name_input current_index)) = false
  /\ fst (http_response w gitignore_url) = 200%Z
  /\ (current_index = 0 \/ current_index = 1 \/ current_index = 2)%Z
  /\ exists rest,
       trace (create_project w name_input current_index) =
       start_events ++ events_1_6 w (submitted name_input current_index) ++ rest.
Proof.
  intros Hdone. set (self := submitted name_input current_index).
  destruct (strip name_input) as [|x s] eqn:Hs.
  { rewrite (create_project_blank w _ _ Hs) in Hdone.
    exfalso. revert Hdone. apply not_template_done. reflexivity. }
  assert (Hne : strip name_input <> []) by (rewrite Hs; discriminate).
  rewrite <- Hs. clear x s Hs.
  rewrite (create_project_trace w _ _ Hne) in *. fold self in Hdone |- *.
  assert (Hp : template_done (trace (pipeline w self))).
  { apply template_done_app in Hdone. destruct Hdone as [Hdone | Hdone].
    - exfalso. revert Hdone. apply not_template_done. reflexivity.
    - apply template_done_app in Hdone. destruct Hdone as [Hdone | Hdone]; [assumption|].
      exfalso. revert Hdone. apply not_template_done.
      destruct (outcome (pipeline w self)); reflexivity. }
  apply template_done_pipeline in Hp.
  destruct (steps_1_6_ok w self Hp) as (H16 & Hex & H200 & Hty).
  split; [assumption|]. split; [assumption|]. split; [assumption|].
  split; [unfold self in Hty; simpl in Hty; lia|].
  rewrite pipeline_steps_1_6, H16, bind_done, trace_pre.
  eexists. rewrite <- !app_assoc. reflexivity.
Qed.

(** The events of the Template Generator are then events of the run. *)
Lemma template_events w name_input current_index ev :
  template_done (trace (create_project w name_input current_index)) ->
  In ev (template_script w (submitted name_input current_index)) ->
  In ev (trace (create_project w name_input current_index)).
Proof.
  intros Hdone Hin.
  destruct (template_completed w _ _ Hdone) as (_ & _ & _ & _ & rest & ->).
  unfold events_1_6. rewrite !in_app_iff. tauto.
Qed.

(** ** Runs on a host where the steps 1 to 6 go through *)

Lemma select_template_script w self :
  (1 <= project_type self <= 3)%Z ->
  select_template w self = run_script w (template_script w self).
Proof.
  intros Hty. unfold select_template, template_script.
  destruct (Z.eqb_spec (project_type self) 1); [reflexivity|].
  destruct (Z.eqb_spec (project_type self) 2); [reflexivity|].
  destruct (Z.eqb_spec (project_type self) 3); [reflexivity|]. lia.
Qed.

Lemma steps_1_6_run w self :
  os_path_exists w (project_dir_of w self) = false ->
  fst (http_response w gitignore_url) = 200%Z ->
  (1 <= project_type self <= 3)%Z ->
  (forall c, In (Ext c) (events_1_6 w self) -> raises w c = None) ->
  steps_1_6 w self = (events_1_6 w self, Ok tt).
Proof.
  intros Hex H200 Hty Hcalls. unfold steps_1_6, steps_1_2, check_exists.
  rewrite Hex, bind_ret, (download_gitignore_200 w H200), (select_template_script w self Hty).
  rewrite ?bind_assoc. repeat rewrite ?(script_app w), ?(script_app_bind w).
  rewrite <- ?app_assoc. apply run_script_ok. assumption.
Qed.

(** On such a host every event of the Template Generator is an event of
    the run. *)
Lemma template_run w name_input current_index ev :
  strip name_input <> [] ->
  os_path_exists w (project_dir_of w (submitted name_input current_index)) = false ->
  fst (http_response w gitignore_url) = 200%Z ->
  (0 <= current_index <= 2)%Z ->
  (forall c, In (Ext c) (events_1_6 w (submitted name_input current_index)) ->
             raises w c = None) ->
  In ev (template_script w (submitted name_input current_index)) ->
  In ev (trace (create_project w name_input current_index)).
Proof.
  intros Hne Hex H200 Hidx Hcalls Hin.
  assert (Hty : (1 <= project_type (submitted name_input current_index) <= 3)%Z)
    by (simpl; lia).
  rewrite (create_project_trace w _ _ Hne), pipeline_steps_1_6,
    (steps_1_6_run w _ Hex H200 Hty Hcalls), bind_done, trace_pre.
  unfold events_1_6. rewrite !in_app_iff. tauto.
Qed.

Ltac in_script := repeat first [ left; reflexivity | right ].

(** ** C1: the Basic project [demo] *)

(** C1.  For the request with the name [demo] and the type Basic, on a
    host where the directory [demo] does not exist in the base directory,
    the template server answers 200 and no call of the steps 1 to 6
    fails, the run writes [app/main.py] with exactly the hello-world
    statement and a newline, [tests/test_basic.py] with the always-true
    test, [README.md] whose section [How to Run] holds the command
    [python app/main.py], and [requirements.txt] with exactly the six
    lines [pytest], [pytest-cov], [pytest-mock], [pytest-xdist],
    [pytest-asyncio], [pytest-profiling], in that order. *)
Theorem demo_basic_project (w : world) :
  os_path_exists w (os_path_join w BASE_PATH [py "demo"]) = false ->
  fst (http_response w gitignore_url) = 200%Z ->
  (forall c, In (Ext c) (events_1_6 w (submitted (py "demo") 0)) -> raises w c = None) ->
  In (Ext (file_write (os_path_join w (py "app") [py "main.py"])
             (py "print(" ++ dq ++ py "Hello, World!" ++ dq ++ py ")" ++ nl)))
     (trace (create_project w (py "demo") 0))
  /\ In (Ext (file_write (os_path_join w (py "tests") [py "test_basic.py"])
                (ln "def test_true():" ++ ln "    assert True")))
        (trace (create_project w (py "demo") 0))
  /\ In (Ext (file_write (py "README.md")
                (ln "# demo" ++ nl
                 ++ ln "## How to Run" ++ nl
                 ++ ln "python app/main.py" ++ nl
                 ++ ln "## How to Run Tests" ++ nl
                 ++ ln "pytest" ++ nl
                 ++ ln "## Docker Usage"
                 ++ ln "### Build Docker Image" ++ nl
                 ++ ln "docker build -t demo ." ++ nl
                 ++ ln "### Run Docker Container" ++ nl
                 ++ ln "docker run --rm demo" ++ nl
                 ++ ln "## Docker Compose Usage" ++ nl
                 ++ ln "docker-compose up --build" ++ nl)))
        (trace (create_project w (py "demo") 0))
  /\ In (Ext (file_write (py "requirements.txt")
                (ln "pytest" ++ ln "pytest-cov" ++ ln "pytest-mock" ++ ln "pytest-xdist"
                 ++ ln "pytest-asyncio" ++ ln "pytest-profiling")))
        (trace (create_project w (py "demo") 0)).
Proof.
  intros Hex H200 Hcalls.
  assert (Hne : strip (py "demo") <> []) by discriminate.
  assert (Hidx : (0 <= 0 <= 2)%Z) by lia.
  pose proof (fun ev => template_run w (py "demo") 0 ev Hne Hex H200 Hidx Hcalls) as Hrun.
  change (template_script w (submitted (py "demo") 0))
    with (basic_script w (submitted (py "demo") 0)) in Hrun.
  repeat split; apply Hrun; unfold basic_script; in_script.
Qed.

Lemma demo_basic_project_witness :
  In (Ext (file_write (py "app/main.py")
             (py "print(" ++ dq ++ py "Hello, World!" ++ dq ++ py ")" ++ nl)))
     (trace (create_project (calm_world []) (py "demo") 0))
  /\ In (Ext (file_write (py "requirements.txt")
                (ln "pytest" ++ ln "pytest-cov" ++ ln "pytest-mock" ++ ln "pytest-xdist"
                 ++ ln "pytest-asyncio" ++ ln "pytest-profiling")))
        (trace (create_project (calm_world []) (py "demo") 0)).
Proof.
  assert (H : os_path_exists (calm_world [])
                (os_path_join (calm_world []) BASE_PATH [py "demo"]) = false
              /\ fst (http_response (calm_world []) gitignore_url) = 200%Z
              /\ (forall c, In (Ext c) (events_1_6 (calm_world []) (submitted (py "demo") 0)) ->
                            raises (calm_world []) c = None)).
  { split; [reflexivity|]. split; [reflexivity|]. intros c _. reflexivity. }
  destruct H as (Hex & H200 & Hcalls).
  split; apply (demo_basic_project (calm_world []) Hex H200 Hcalls).
Defined.

(** ** C4: the Docker port mapping *)

(** C4.  On a host where the steps 1 to 6 go through, the compose file
    and the [docker run] line of the README follow the project type:
    Basic writes a compose file without a [ports] section and the line
    [docker run --rm <name>]; DataAnalytics writes a compose file that
    maps [8888:8888] and the line [docker run -p 8888:8888 <name>];
    ApiService writes a compose file that maps [8000:8000] and the line
    [docker run -p 8000:8000 <name>].  For every run command the README
    picks the options of that line by looking for [uvicorn], then for
    [jupyter], in the run command. *)
Theorem docker_ports_by_type (w : world) (name_input : pystr) (current_index : Z) :
  strip name_input <> [] ->
  os_path_exists w (project_dir_of w (submitted name_input current_index)) = false ->
  fst (http_response w gitignore_url) = 200%Z ->
  (forall c, In (Ext c) (events_1_6 w (submitted name_input current_index)) ->
             raises w c = None) ->
  (current_index = 0%Z ->
     In (Ext (file_write (py "docker-compose.yml")
                (ln "services:" ++ ln "  app:" ++ ln "    build: ."
                 ++ ln "    command: python app/main.py")))
        (trace (create_project w name_input current_index))
     /\ contains (py "ports")
          (ln "services:" ++ ln "  app:" ++ ln "    build: ."
           ++ ln "    command: python app/main.py") = false
     /\ In (Ext (file_write (py "README.md")
                   (readme_intro (strip name_input) (py "python app/main.py")
                    ++ (py "docker run --rm " ++ strip name_input ++ nl)
                    ++ readme_outro)))
           (trace (create_project w name_input current_index)))
  /\ (current_index = 1%Z ->
        In (Ext (file_write (py "docker-compose.yml")
                   (ln "services:" ++ ln "  jupyter:" ++ ln "    build: ."
                    ++ ln "    ports:"
                    ++ py "      - " ++ dq ++ py "8888:8888" ++ dq ++ nl
                    ++ ln "    volumes:"
                    ++ ln "      - ./notebooks:/home/jovyan/work")))
           (trace (create_project w name_input current_index))
        /\ In (Ext (file_write (py "README.md")
                      (readme_intro (strip name_input)
                         (py "jupyter notebook notebooks/analysis.ipynb")
                       ++ (py "docker run -p 8888:8888 " ++ strip name_input ++ nl)
                       ++ readme_outro)))
              (trace (create_project w name_input current_index)))
  /\ (current_index = 2%Z ->
        In (Ext (file_write (py "docker-compose.yml")
                   (ln "services:" ++ ln "  app:" ++ ln "    build: ."
                    ++ ln "    ports:"
                    ++ py "      - " ++ dq ++ py "8000:8000" ++ dq ++ nl
                    ++ ln "    command: uvicorn app.main:app --host 0.0.0.0 --port 8000")))
           (trace (create_project w name_input current_index))
        /\ In (Ext (file_write (py "README.md")
                      (readme_intro (strip name_input) (py "uvicorn app.main:app --reload")
                       ++ (py "docker run -p 8000:8000 " ++ strip name_input ++ nl)
                       ++ readme_outro)))
              (trace (create_project w name_input current_index)))
  /\ (forall (self : app) (run_command : pystr),
        readme_content self run_command =
        readme_intro (project_name self) run_command
        ++ (py "docker run "
            ++ (if contains (py "uvicorn") run_command then py "-p 8000:8000 "
                else if contains (py "jupyter") run_command then py "-p 8888:8888 "
                else py "--rm ")
            ++ project_name self ++ nl)
        ++ readme_outro).
Proof.
  intros Hne Hex H200 Hcalls.
  assert (Hrun : (0 <= current_index <= 2)%Z -> forall ev,
                 In ev (template_script w (submitted name_input current_index)) ->
                 In ev (trace (create_project w name_input current_index))).
  { intros Hidx ev. apply template_run; assumption. }
  split; [|split; [|split]].
  - intros ->. specialize (Hrun ltac:(lia)).
    change (template_script w (submitted name_input 0))
      with (basic_script w (submitted name_input 0)) in Hrun.
    split; [|split]; [| reflexivity |]; apply Hrun; unfold basic_script.
    + in_script.
    + rewrite readme_content_pieces. in_script.
  - intros ->. specialize (Hrun ltac:(lia)).
    change (template_script w (submitted name_input 1))
      with (data_analytics_script w (submitted name_input 1)) in Hrun.
    split; apply Hrun; unfold data_analytics_script.
    + in_script.
    + rewrite readme_content_pieces. in_script.
  - intros ->. specialize (Hrun ltac:(lia)).
    change (template_script w (submitted name_input 2))
      with (fastapi_script w (submitted name_input 2)) in Hrun.
    split; apply Hrun; unfold fastapi_script.
    + in_script.
    + rewrite readme_content_pieces. in_script.
  - intros self run_command. rewrite readme_content_pieces. reflexivity.
Qed.

Lemma docker_ports_by_type_witness :
  In (Ext (file_write (py "docker-compose.yml")
             (ln "services:" ++ ln "  app:" ++ ln "    build: ."
              ++ ln "    ports:"
              ++ py "      - " ++ dq ++ py "8000:8000" ++ dq ++ nl
              ++ ln "    command: uvicorn app.main:app --host 0.0.0.0 --port 8000")))
     (trace (create_project (calm_world []) (py " shop ") 2))
  /\ In (Ext (file_write (py "README.md")
                (readme_intro (strip (py " shop ")) (py "uvicorn app.main:app --reload")
                 ++ (py "docker run -p 8000:8000 " ++ strip (py " shop ") ++ nl)
                 ++ readme_outro)))
        (trace (create_project (calm_world []) (py " shop ") 2)).
Proof.
  assert (Hne : strip (py " shop ") <> []) by discriminate.
  assert (Hcalls : forall c,
            In (Ext c) (events_1_6 (calm_world []) (submitted (py " shop ") 2)) ->
            raises (calm_world []) c = None) by (intros c _; reflexivity).
  apply (docker_ports_by_type (calm_world []) (py " shop ") 2 Hne eq_refl eq_refl Hcalls).
  reflexivity.
Defined.

(** ** C7: the dependency manifest *)

Lemma join_lines x items : join nl (x :: items) ++ nl = lines (x :: items).
Proof.
  revert x. induction items as [|y items IH]; intros x.
  - unfold lines. simpl. rewrite app_nil_r. reflexivity.
  - change (join nl (x :: y :: items)) with (x ++ nl ++ join nl (y :: items)).
    change (lines (x :: y :: items)) with ((x ++ nl) ++ lines (y :: items)).
    rewrite <- IH, <- !app_assoc. reflexivity.
Qed.

(** C7.  For every non-empty package list the text of [requirements.txt]
    is the list, one name per line in the list's order, every line ended
    by a newline; and on a host where the steps 1 to 6 go through, the
    run writes to [requirements.txt] the lines of the type's list: the
    six test packages for Basic, [jupyter] and the six for DataAnalytics,
    [fastapi], [uvicorn], the six and [httpx] for ApiService. *)
Theorem requirements_by_type (w : world) (name_input : pystr) (current_index : Z) :
  strip name_input <> [] ->
  os_path_exists w (project_dir_of w (submitted name_input current_index)) = false ->
  fst (http_response w gitignore_url) = 200%Z ->
  (forall c, In (Ext c) (events_1_6 w (submitted name_input current_index)) ->
             raises w c = None) ->
  (forall packages, packages <> [] -> requirements_content packages = lines packages)
  /\ (current_index = 0%Z ->
        In (Ext (file_write (py "requirements.txt")
                   (lines [py "pytest"; py "pytest-cov"; py "pytest-mock"; py "pytest-xdist";
                           py "pytest-asyncio"; py "pytest-profiling"])))
           (trace (create_project w name_input current_index)))
  /\ (current_index = 1%Z ->
        In (Ext (file_write (py "requirements.txt")
                   (lines [py "jupyter"; py "pytest"; py "pytest-cov"; py "pytest-mock";
                           py "pytest-xdist"; py "pytest-asyncio"; py "pytest-profiling"])))
           (trace (create_project w name_input current_index)))
  /\ (current_index = 2%Z ->
        In (Ext (file_write (py "requirements.txt")
                   (lines [py "fastapi"; py "uvicorn"; py "pytest"; py "pytest-cov";
                           py "pytest-mock"; py "pytest-xdist"; py "pytest-asyncio";
                           py "pytest-profiling"; py "httpx"])))
           (trace (create_project w name_input current_index))).
Proof.
  intros Hne Hex H200 Hcalls.
  assert (Hrun : (0 <= current_index <= 2)%Z -> forall ev,
                 In ev (template_script w (submitted name_input current_index)) ->
                 In ev (trace (create_project w name_input current_index))).
  { intros Hidx ev. apply template_run; assumption. }
  split; [|split; [|split]].
  - intros [|x items] Hp; [congruence|]. apply join_lines.
  - intros ->. apply (Hrun ltac:(lia)).
    change (template_script w (submitted name_input 0))
      with (basic_script w (submitted name_input 0)).
    unfold basic_script, requirements_content, basic_packages. rewrite join_lines. in_script.
  - intros ->. apply (Hrun ltac:(lia)).
    change (template_script w (submitted name_input 1))
      with (data_analytics_script w (submitted name_input 1)).
    unfold data_analytics_script, requirements_content, data_analytics_packages.
    rewrite join_lines. in_script.
  - intros ->. apply (Hrun ltac:(lia)).
    change (template_script w (submitted name_input 2))
      with (fastapi_script w (submitted name_input 2)).
    unfold fastapi_script, requirements_content, fastapi_packages.
    rewrite join_lines. in_script.
Qed.

Lemma requirements_by_type_witness :
  In (Ext (file_write (py "requirements.txt")
             (ln "jupyter" ++ ln "pytest" ++ ln "pytest-cov" ++ ln "pytest-mock"
              ++ ln "pytest-xdist" ++ ln "pytest-asyncio" ++ ln "pytest-profiling")))
     (trace (create_project (calm_world []) (py "stats") 1)).
Proof.
  assert (Hne : strip (py "stats") <> []) by discriminate.
  assert (Hcalls : forall c,
            In (Ext c) (events_1_6 (calm_world []) (submitted (py "stats") 1)) ->
            raises (calm_world []) c = None) by (intros c _; reflexivity).
  apply (requirements_by_type (calm_world []) (py "stats") 1 Hne eq_refl eq_refl Hcalls).
  reflexivity.
Defined.

(** ** C10: the name is stripped before it is used *)

Lemma first_call_makedirs w self :
  os_path_exists w (project_dir_of w self) = false ->
  exists rest, trace (pipeline w self) = Ext (os_makedirs (project_dir_of w self) false) :: rest.
Proof.
  intros Hex. unfold pipeline, check_exists. rewrite Hex, bind_ret.
  destruct (bind_trace_prefix _ _ (run_script w (scaffold_script w self))
              (fun _ => download_gitignore w ;; run_script w vcs_lint_script ;;
                        select_template w self ;; run_script w (editor_config_script w) ;;
                        install_dependencies w (venv_dir_of w self) ;;
                        run_script w [progress_signal 88] ;;
                        open_in_vscode w (project_dir_of w self) ;;
                        run_script w finish_script)) as [r ->].
  unfold scaffold_script.
  destruct (run_script_head w (os_makedirs (project_dir_of w self) false)
              [Ext (os_chdir (project_dir_of w self));
               output_signal (py "SUCCESS: Created project directory " ++ dq
                              ++ project_dir_of w self ++ dq ++ py ".");
               progress_signal 11;
               Ext (venv_create (venv_dir_of w self) true);
               output_signal (py "SUCCESS: Virtual environment created.");
               progress_signal 22]) as [r' ->].
  eexists. reflexivity.
Qed.

(** C10.  A run on a name and the run on the stripped name are the same
    run.  The project directory the run creates is the base path joined
    with the stripped name, and the README the Template Generator writes
    has the stripped name in its heading and as the image tag of its
    [docker build] and [docker run] lines. *)
Theorem name_is_stripped (w : world) (name_input : pystr) (current_index : Z) :
  create_project w name_input current_index
  = create_project w (strip name_input) current_index
  /\ (strip name_input <> [] ->
      os_path_exists w (os_path_join w BASE_PATH [strip name_input]) = false ->
      exists rest,
        trace (create_project w name_input current_index) =
        start_events
        ++ Ext (os_makedirs (os_path_join w BASE_PATH [strip name_input]) false) :: rest)
  /\ (template_done (trace (create_project w name_input current_index)) ->
      exists run_command after_heading after_build options,
        In (Ext (file_write (py "README.md")
                   (py "# " ++ strip name_input ++ nl
                    ++ after_heading
                    ++ py "docker build -t " ++ strip name_input ++ ln " ."
                    ++ after_build
                    ++ py "docker run " ++ options ++ strip name_input ++ nl
                    ++ readme_outro)))
           (trace (create_project w name_input current_index))
        /\ py "# " ++ strip name_input ++ nl
           ++ after_heading
           ++ py "docker build -t " ++ strip name_input ++ ln " ."
           ++ after_build
           ++ py "docker run " ++ options ++ strip name_input ++ nl
           ++ readme_outro
           = readme_content (submitted name_input current_index) run_command).
Proof.
  split; [|split].
  - unfold create_project. rewrite strip_strip. reflexivity.
  - intros Hne Hex. rewrite (create_project_trace w _ _ Hne).
    destruct (first_call_makedirs w (submitted name_input current_index) Hex) as [r ->].
    eexists. reflexivity.
  - intros Hdone.
    pose proof (template_events w name_input current_index) as Hrun.
    destruct (template_completed w _ _ Hdone) as (_ & _ & _ & Hidx & _).
    assert (Hreadme : forall cmd,
              In (Ext (file_write (py "README.md")
                         (readme_content (submitted name_input current_index) cmd)))
                 (template_script w (submitted name_input current_index)) ->
              exists run_command after_heading after_build options,
                In (Ext (file_write (py "README.md")
                           (py "# " ++ strip name_input ++ nl
                            ++ after_heading
                            ++ py "docker build -t " ++ strip name_input ++ ln " ."
                            ++ after_build
                            ++ py "docker run " ++ options ++ strip name_input ++ nl
                            ++ readme_outro)))
                   (trace (create_project w name_input current_index))
                /\ py "# " ++ strip name_input ++ nl
                   ++ after_heading
                   ++ py "docker build -t " ++ strip name_input ++ ln " ."
                   ++ after_build
                   ++ py "docker run " ++ options ++ strip name_input ++ nl
                   ++ readme_outro
                   = readme_content (submitted name_input current_index) run_command).
    { intros cmd Hin. apply (Hrun _ Hdone) in Hin.
      exists cmd,
        (nl ++ ln "## How to Run" ++ nl ++ (cmd ++ nl) ++ nl
         ++ ln "## How to Run Tests" ++ nl ++ ln "pytest" ++ nl
         ++ ln "## Docker Usage" ++ ln "### Build Docker Image" ++ nl),
        (nl ++ ln "### Run Docker Container" ++ nl),
        (docker_run_options cmd).
      assert (Heq : py "# " ++ strip name_input ++ nl
                    ++ (nl ++ ln "## How to Run" ++ nl ++ (cmd ++ nl) ++ nl
                        ++ ln "## How to Run Tests" ++ nl ++ ln "pytest" ++ nl
                        ++ ln "## Docker Usage" ++ ln "### Build Docker Image" ++ nl)
                    ++ py "docker build -t " ++ strip name_input ++ ln " ."
                    ++ (nl ++ ln "### Run Docker Container" ++ nl)
                    ++ py "docker run " ++ docker_run_options cmd ++ strip name_input ++ nl
                    ++ readme_outro
                    = readme_content (submitted name_input current_index) cmd).
      { rewrite readme_content_pieces. unfold readme_intro, docker_run_line.
        cbn [project_name submitted]. rewrite <- !app_assoc. reflexivity. }
      rewrite Heq. split; [assumption | reflexivity]. }
    destruct Hidx as [-> | [-> | ->]].
    + apply (Hreadme (py "python app/main.py")).
      change (template_script w (submitted name_input 0))
        with (basic_script w (submitted name_input 0)).
      unfold basic_script. in_script.
    + apply (Hreadme (py "jupyter notebook notebooks/analysis.ipynb")).
      change (template_script w (submitted name_input 1))
        with (data_analytics_script w (submitted name_input 1)).
      unfold data_analytics_script. in_script.
    + apply (Hreadme (py "uvicorn app.main:app --reload")).
      change (template_script w (submitted name_input 2))
        with (fastapi_script w (submitted name_input 2)).
      unfold fastapi_script. in_script.
Qed.

Lemma name_is_stripped_witness :
  create_project (calm_world []) (py "  demo ") 0 = create_project (calm_world []) (py "demo") 0
  /\ exists rest,
       trace (create_project (calm_world []) (py "  demo ") 0) =
       start_events ++ Ext (os_makedirs (py "D:\eora/demo") false) :: rest.
Proof.
  destruct (name_is_stripped (calm_world []) (py "  demo ") 0) as (Heq & Hdir & _).
  split; [rewrite Heq; reflexivity|].
  apply Hdir; [discriminate | reflexivity].
Defined.

(** * Further properties of the pipeline *)

Lemma pipeline_steps_1_9 w self :
  pipeline w self = steps_1_9 w self ;; run_script w finish_script.
Proof.
  rewrite pipeline_steps_1_7. unfold steps_1_9, steps_1_8, steps_8_9.
  rewrite !bind_assoc. reflexivity.
Qed.

Lemma pipeline_steps_1_8 w self :
  pipeline w self =
  steps_1_8 w self ;; open_in_vscode w (project_dir_of w self) ;; run_script w finish_script.
Proof. rewrite pipeline_steps_1_9. unfold steps_1_9. rewrite !bind_assoc. reflexivity. Qed.

Ltac unfold_steps :=
  unfold steps_1_9, steps_1_8, steps_1_7, steps_1_6, steps_1_5, steps_1_2, steps_8_9,
    check_exists, select_template, download_gitignore, install_dependencies, open_in_vscode.

(** The run of the pipeline: the steps, then the final report if they
    all went through. *)
Lemma pipeline_cases w self :
  (outcome (steps_1_9 w self) = Ok tt
   /\ pipeline w self = (trace (steps_1_9 w self) ++ finish_script, Ok tt))
  \/ (exists e, outcome (steps_1_9 w self) = Err e
        /\ pipeline w self = (trace (steps_1_9 w self), Err e)).
Proof.
  rewrite pipeline_steps_1_9.
  destruct (bind_cases _ _ (steps_1_9 w self) (fun _ => run_script w finish_script))
    as [([] & Ha & ->) | (e & He & ->)].
  - left. split; [assumption | reflexivity].
  - right. exists e. split; [assumption | reflexivity].
Qed.

Lemma steps_1_9_no_button w self :
  forallb not_button_event (trace (steps_1_9 w self)) = true.
Proof. unfold_steps. all_events. Qed.

Lemma run_setup_ok w self : outcome (run_setup w self) = Ok tt.
Proof.
  destruct (run_setup_cases w self) as [[Ho ->] | (e & _ & ->)]; [assumption | reflexivity].
Qed.

(** ** The buttons *)

(** X1.  Every run on a name that is not blank ends normally, whatever
    failed on the way: the two buttons are disabled at the start, no
    step touches them, and the last two things the run does are to
    enable them again. *)
Theorem run_ends_with_buttons_enabled
    (w : world) (name_input : pystr) (current_index : Z) :
  strip name_input <> [] ->
  outcome (create_project w name_input current_index) = Ok tt
  /\ exists body,
       trace (create_project w name_input current_index) =
       [create_button_setEnabled false; cancel_button_setEnabled false;
        progress_bar_setValue 0; output_text_clear; thread_start]
       ++ body
       ++ [create_button_setEnabled true; cancel_button_setEnabled true]
       /\ forallb (fun ev => negb (is_button_event ev)) body = true.
Proof.
  intros Hne. split.
  - rewrite (create_project_named w _ _ Hne), outcome_pre. apply run_setup_ok.
  - rewrite (create_project_trace w _ _ Hne).
    set (self := submitted name_input current_index).
    pose proof (steps_1_9_no_button w self) as Hquiet.
    destruct (pipeline_cases w self) as [[_ ->] | (e & _ & ->)]; cbn [trace outcome fst snd].
    + exists (trace (steps_1_9 w self) ++ [progress_signal 100]). split.
      * unfold start_events, finish_script. rewrite app_nil_r, <- !app_assoc. reflexivity.
      * change (fun ev => negb (is_button_event ev)) with not_button_event.
        rewrite forallb_app, Hquiet. reflexivity.
    + exists (trace (steps_1_9 w self) ++ [output_signal (py "ERROR: " ++ exn_str e)]). split.
      * unfold start_events, handler_events. rewrite <- !app_assoc. reflexivity.
      * change (fun ev => negb (is_button_event ev)) with not_button_event.
        rewrite forallb_app, Hquiet. reflexivity.
Qed.

Lemma run_ends_with_buttons_enabled_witness :
  outcome (create_project full_disk_world (py "demo") 1) = Ok tt.
Proof.
  apply (run_ends_with_buttons_enabled full_disk_world (py "demo") 1). discriminate.
Defined.

(** ** Failures in the steps 1 to 7 *)

Lemma ext_calls_app l1 l2 : ext_calls (l1 ++ l2) = ext_calls l1 ++ ext_calls l2.
Proof. apply filter_app. Qed.

(** X2.  A failing call of any step but the last two ends the run: the call
    is the last one the run makes, the handler of [run_setup] reports
    its error, the buttons are enabled again, and nothing that was
    created before is undone. *)
Theorem failing_call_aborts_run
    (w : world) (name_input : pystr) (current_index : Z) (c : call) (e : exn) :
  In (Ext c) (trace (create_project w name_input current_index)) ->
  raises w c = Some e ->
  is_pip_install c = false ->
  is_launch c = false ->
  exists p,
    run_setup_body w (submitted name_input current_index) = (p ++ [Ext c], Err e)
    /\ trace (create_project w name_input current_index) =
       start_events ++ p
       ++ [Ext c; output_signal (py "ERROR: " ++ exn_str e);
           create_button_setEnabled true; cancel_button_setEnabled true]
    /\ ext_calls (trace (create_project w name_input current_index)) = ext_calls p ++ [Ext c].
Proof.
  intros Hin He Hpip Hlaunch.
  apply create_project_call in Hin. destruct Hin as [Hne Hin].
  destruct (pipeline_fail_fast w _ c e Hin He Hpip Hlaunch) as (p & Hp & _).
  exists p. rewrite (create_project_trace w _ _ Hne), run_setup_body_pipeline, Hp.
  cbn [trace outcome fst snd]. split; [reflexivity|].
  assert (Ht : start_events ++ (p ++ [Ext c]) ++ handler_events e =
               start_events ++ p
               ++ [Ext c; output_signal (py "ERROR: " ++ exn_str e);
                   create_button_setEnabled true; cancel_button_setEnabled true]).
  { unfold handler_events. rewrite <- !app_assoc. reflexivity. }
  rewrite Ht. split; [reflexivity|].
  rewrite !ext_calls_app. reflexivity.
Qed.

Lemma failing_call_aborts_run_witness :
  exists p,
    ext_calls (trace (create_project
                        (faulty_world [] (fun c => match c with venv_create _ _ => true
                                                              | _ => false end) disk_full)
                        (py "demo") 2))
    = ext_calls p ++ [Ext (venv_create (py "D:\eora/demo/.venv") true)].
Proof.
  destruct (failing_call_aborts_run
              (faulty_world [] (fun c => match c with venv_create _ _ => true
                                                    | _ => false end) disk_full)
              (py "demo") 2 (venv_create (py "D:\eora/demo/.venv") true) disk_full)
    as (p & _ & _ & Hp).
  - vm_compute. repeat first [ left; reflexivity | right ].
  - reflexivity.
  - reflexivity.
  - reflexivity.
  - exists p. exact Hp.
Defined.

(** ** The Dependency Installer *)

Lemma install_dependencies_uncaught w venv_dir e :
  raises w (pip_install w venv_dir) = Some e -> exn_type e <> CalledProcessError ->
  install_dependencies w venv_dir =
  ([output_signal (py "INFO: Installing dependencies..."); Ext (pip_install w venv_dir)],
   Err e).
Proof.
  intros Hc He. unfold install_dependencies, perform. rewrite Hc.
  cbn [bind try_except find_handler emit tell List.app]. unfold isinstance.
  destruct (exn_type e); try reflexivity. congruence.
Qed.

Lemma install_dependencies_returned w venv_dir :
  raises w (pip_install w venv_dir) = None ->
  install_dependencies w venv_dir =
  ([output_signal (py "INFO: Installing dependencies..."); Ext (pip_install w venv_dir);
    output_signal (py "SUCCESS: Dependencies installed.")], Ok tt).
Proof. intros Hc. unfold install_dependencies, perform. rewrite Hc. reflexivity. Qed.

(** A run that reaches the package manager has made the steps 1 to 7. *)
Lemma pipeline_reaches_install w self :
  In (Ext (pip_install w (venv_dir_of w self))) (trace (pipeline w self)) ->
  steps_1_7 w self = (events_1_7 w self, Ok tt).
Proof.
  intros Hin. rewrite pipeline_steps_1_7 in Hin.
  destruct (bind_cases _ _ (steps_1_7 w self) (fun _ => steps_8_9 w self))
    as [([] & Ha & _) | (e & _ & Hb)].
  - apply steps_1_7_ok. assumption.
  - rewrite Hb in Hin. simpl in Hin.
    apply (no_call_In _ _ _ (proj1 (steps_1_7_no_later_call w self))) in Hin. discriminate.
Qed.

(** X3.  Only a non-zero exit status of the package manager is handled in the
    step.  When its call raises anything else (the executable is
    missing, say), the run ends there: the handler of [run_setup]
    reports the error and the editor is not launched. *)
Theorem installer_other_error_aborts
    (w : world) (name_input : pystr) (current_index : Z) (e : exn) :
  In (Ext (pip_install w (venv_dir_of w (submitted name_input current_index))))
     (trace (create_project w name_input current_index)) ->
  raises w (pip_install w (venv_dir_of w (submitted name_input current_index))) = Some e ->
  exn_type e <> CalledProcessError ->
  trace (create_project w name_input current_index) =
  start_events
  ++ events_1_7 w (submitted name_input current_index)
  ++ [output_signal (py "INFO: Installing dependencies...");
      Ext (pip_install w (venv_dir_of w (submitted name_input current_index)));
      output_signal (py "ERROR: " ++ exn_str e);
      create_button_setEnabled true; cancel_button_setEnabled true]
  /\ outcome (run_setup_body w (submitted name_input current_index)) = Err e
  /\ no_call is_launch (trace (create_project w name_input current_index)) = true.
Proof.
  intros Hin Hc He. set (self := submitted name_input current_index) in *.
  apply create_project_call in Hin. destruct Hin as [Hne Hin]. fold self in Hin.
  pose proof (pipeline_reaches_install w self Hin) as H17.
  pose proof (proj2 (steps_1_7_no_later_call w self)) as Hlaunch.
  rewrite H17 in Hlaunch. cbn [trace fst] in Hlaunch.
  assert (Hp : pipeline w self =
               (events_1_7 w self
                ++ [output_signal (py "INFO: Installing dependencies...");
                    Ext (pip_install w (venv_dir_of w self))], Err e)).
  { rewrite pipeline_steps_1_7, H17, bind_done. unfold steps_8_9.
    rewrite (install_dependencies_uncaught w _ e Hc He). reflexivity. }
  rewrite (create_project_trace w _ _ Hne), run_setup_body_pipeline. fold self.
  rewrite Hp. cbn [trace outcome fst snd]. unfold handler_events.
  assert (Ht : start_events
               ++ (events_1_7 w self
                   ++ [output_signal (py "INFO: Installing dependencies...");
                       Ext (pip_install w (venv_dir_of w self))])
               ++ [output_signal (py "ERROR: " ++ exn_str e);
                   create_button_setEnabled true; cancel_button_setEnabled true]
               = start_events ++ events_1_7 w self
                 ++ [output_signal (py "INFO: Installing dependencies...");
                     Ext (pip_install w (venv_dir_of w self));
                     output_signal (py "ERROR: " ++ exn_str e);
                     create_button_setEnabled true; cancel_button_setEnabled true]).
  { rewrite <- !app_assoc. reflexivity. }
  rewrite Ht. split; [reflexivity|]. split; [reflexivity|].
  rewrite !no_call_app, Hlaunch. reflexivity.
Qed.

Lemma installer_other_error_aborts_witness :
  outcome (run_setup_body
             (faulty_world [] is_pip_install (mk_exn FileNotFoundError (py "[Errno 2]")))
             (submitted (py "demo") 0))
  = Err (mk_exn FileNotFoundError (py "[Errno 2]")).
Proof.
  apply (installer_other_error_aborts
           (faulty_world [] is_pip_install (mk_exn FileNotFoundError (py "[Errno 2]")))
           (py "demo") 0 (mk_exn FileNotFoundError (py "[Errno 2]"))).
  - vm_compute. repeat first [ left; reflexivity | right ].
  - reflexivity.
  - discriminate.
Defined.

(** ** The Editor Launcher *)

Lemma steps_1_8_no_launch w self : no_call is_launch (trace (steps_1_8 w self)) = true.
Proof. unfold no_call. unfold_steps. all_events. Qed.

(** X4.  When the launcher's call raises, what follows depends on the error:
    [FileNotFoundError] and a non-zero exit status are reported by the
    step itself and the run finishes as a success (progress 100); any
    other error ends the [try] block and is reported by the handler of
    [run_setup]. *)
Theorem launcher_failure_is_reported
    (w : world) (name_input : pystr) (current_index : Z) (e : exn) :
  In (Ext (launch_editor (project_dir_of w (submitted name_input current_index))))
     (trace (create_project w name_input current_index)) ->
  raises w (launch_editor (project_dir_of w (submitted name_input current_index))) = Some e ->
  exists before,
    trace (create_project w name_input current_index) =
    start_events ++ before
    ++ Ext (launch_editor (project_dir_of w (submitted name_input current_index)))
       :: (if isinstance e FileNotFoundError then
             [output_signal
                (py "ERROR: Could not find VS Code. Ensure that the path is correct.");
              progress_signal 100;
              create_button_setEnabled true; cancel_button_setEnabled true]
           else if isinstance e CalledProcessError then
             [output_signal (py "ERROR: Failed to open VS Code: " ++ exn_str e);
              progress_signal 100;
              create_button_setEnabled true; cancel_button_setEnabled true]
           else
             [output_signal (py "ERROR: " ++ exn_str e);
              create_button_setEnabled true; cancel_button_setEnabled true])
    /\ outcome (run_setup_body w (submitted name_input current_index))
       = (if isinstance e FileNotFoundError || isinstance e CalledProcessError
          then Ok tt else Err e).
Proof.
  intros Hin He. set (self := submitted name_input current_index) in *.
  apply create_project_call in Hin. destruct Hin as [Hne Hin]. fold self in Hin.
  rewrite (create_project_trace w _ _ Hne), run_setup_body_pipeline. fold self.
  rewrite pipeline_steps_1_8 in *.
  destruct (bind_cases _ _ (steps_1_8 w self)
              (fun _ => open_in_vscode w (project_dir_of w self) ;;
                        run_script w finish_script))
    as [([] & _ & Hb) | (e' & _ & Hb)]; rewrite Hb in *.
  - exists (trace (steps_1_8 w self)).
    unfold open_in_vscode, perform. rewrite He.
    cbn [bind try_except find_handler emit tell List.app].
    destruct (isinstance e FileNotFoundError); cbn [orb];
      [|destruct (isinstance e CalledProcessError)];
      (split; [|reflexivity]); unfold pre; cbn [trace outcome fst snd List.app];
      rewrite <- ?app_assoc; reflexivity.
  - simpl in Hin.
    apply (no_call_In _ _ _ (steps_1_8_no_launch w self)) in Hin. discriminate.
Qed.

Lemma launcher_failure_is_reported_witness :
  outcome (run_setup_body
             (faulty_world [] is_launch (mk_exn FileNotFoundError (py "[WinError 2]")))
             (submitted (py "demo") 0)) = Ok tt
  /\ outcome (run_setup_body
                (faulty_world [] is_launch (mk_exn PermissionError (py "[Errno 13]")))
                (submitted (py "demo") 0))
     = Err (mk_exn PermissionError (py "[Errno 13]")).
Proof.
  split.
  - destruct (launcher_failure_is_reported
                (faulty_world [] is_launch (mk_exn FileNotFoundError (py "[WinError 2]")))
                (py "demo") 0 (mk_exn FileNotFoundError (py "[WinError 2]")))
      as (before & _ & Ho).
    + vm_compute. repeat first [ left; reflexivity | right ].
    + reflexivity.
    + exact Ho.
  - destruct (launcher_failure_is_reported
                (faulty_world [] is_launch (mk_exn PermissionError (py "[Errno 13]")))
                (py "demo") 0 (mk_exn PermissionError (py "[Errno 13]")))
      as (before & _ & Ho).
    + vm_compute. repeat first [ left; reflexivity | right ].
    + reflexivity.
    + exact Ho.
Defined.

(** ** The progress reports *)

Lemma progress_values_app l1 l2 :
  progress_values (l1 ++ l2) = progress_values l1 ++ progress_values l2.
Proof.
  induction l1 as [|ev l1 IH]; [reflexivity|].
  destruct ev; simpl; rewrite ?IH; reflexivity.
Qed.

Lemma progress_values_silent tr :
  forallb not_progress tr = true -> progress_values tr = [].
Proof.
  induction tr as [|ev tr IH]; [reflexivity|].
  destruct ev; simpl; try assumption. discriminate.
Qed.

Lemma reports_silent A (m : M A) :
  forallb not_progress (trace m) = true -> reports m [].
Proof.
  intros H. unfold reports. rewrite (progress_values_silent _ H).
  split; [exists []; reflexivity | reflexivity].
Qed.

Lemma reports_script w s : reports (run_script w s) (progress_values s).
Proof.
  destruct (run_script_cases w s) as [[Hs _] | (p & c & e & q & Hsplit & _ & _ & Hs)];
    unfold reports; rewrite Hs; cbn [trace outcome fst snd].
  - split; [exists []; apply app_nil_r | reflexivity].
  - split; [|discriminate].
    exists (progress_values q). rewrite Hsplit, !progress_values_app, <- app_assoc.
    reflexivity.
Qed.

Lemma reports_bind A B (m : M A) (f : A -> M B) s s1 s2 :
  reports m s1 -> (forall a, reports (f a) s2) -> s = s1 ++ s2 -> reports (bind m f) s.
Proof.
  intros [[r1 Hr1] Hm] Hf ->.
  destruct (bind_cases A B m f) as [(a & Ha & ->) | (e & He & ->)].
  - destruct (Hf a) as [[r2 Hr2] Hfa]. unfold reports.
    rewrite trace_pre, outcome_pre, progress_values_app, (Hm a Ha). split.
    + exists r2. rewrite <- app_assoc, Hr2. reflexivity.
    + intros b Hb. rewrite (Hfa b Hb). reflexivity.
  - split; [|discriminate]. exists (r1 ++ s2).
    cbn [trace fst]. rewrite app_assoc, Hr1. reflexivity.
Qed.

Lemma steps_1_9_reports w self :
  reports (steps_1_9 w self) [11; 22; 33; 44; 55; 66; 77; 88]%Z.
Proof.
  unfold steps_1_9, steps_1_8, steps_1_7, steps_1_6, steps_1_2, check_exists.
  eapply reports_bind; [| intros _ |].
  - eapply reports_bind; [| intros _ |].
    + eapply reports_bind; [| intros _ |].
      * eapply reports_bind; [| intros _ |].
        -- eapply reports_bind; [| intros _ |].
           ++ apply reports_silent. all_events.
           ++ apply reports_script.
           ++ reflexivity.
        -- eapply reports_bind; [| intros _ |].
           ++ apply reports_silent. unfold download_gitignore. all_events.
           ++ eapply reports_bind; [| intros _ |].
              ** apply reports_script.
              ** apply reports_silent. unfold select_template. all_events.
              ** reflexivity.
           ++ reflexivity.
        -- reflexivity.
      * apply reports_script.
      * reflexivity.
    + eapply reports_bind; [| intros _ |].
      * apply reports_silent. unfold install_dependencies. all_events.
      * apply reports_script.
      * reflexivity.
    + reflexivity.
  - apply reports_silent. unfold open_in_vscode. all_events.
  - reflexivity.
Qed.

(** The progress values of a run, from those of its steps. *)
Lemma progress_of_run w name_input current_index :
  strip name_input <> [] ->
  progress_values (trace (create_project w name_input current_index)) =
  progress_values (trace (steps_1_9 w (submitted name_input current_index)))
  ++ match outcome (steps_1_9 w (submitted name_input current_index)) with
     | Ok _ => [100%Z]
     | Err _ => []
     end.
Proof.
  intros Hne. rewrite (create_project_trace w _ _ Hne).
  destruct (pipeline_cases w (submitted name_input current_index))
    as [[Ho ->] | (e & Ho & ->)]; rewrite Ho; cbn [trace outcome fst snd];
    rewrite !progress_values_app, ?app_nil_r; reflexivity.
Qed.

Lemma outcome_of_run w self : outcome (run_setup_body w self) = outcome (steps_1_9 w self).
Proof.
  rewrite run_setup_body_pipeline.
  destruct (pipeline_cases w self) as [[Ho ->] | (e & Ho & ->)]; rewrite Ho; reflexivity.
Qed.

(** X5.  In every run the values reported on [progress_signal] are an initial
    part of 11, 22, 33, 44, 55, 66, 77, 88, 100, in that order; they are
    all of them when the [try] block of [run_setup] runs to its end. *)
Theorem progress_reports_in_order (w : world) (name_input : pystr) (current_index : Z) :
  (exists rest,
     progress_values (trace (create_project w name_input current_index)) ++ rest
     = [11; 22; 33; 44; 55; 66; 77; 88; 100]%Z)
  /\ (strip name_input <> [] ->
      outcome (run_setup_body w (submitted name_input current_index)) = Ok tt ->
      progress_values (trace (create_project w name_input current_index))
      = [11; 22; 33; 44; 55; 66; 77; 88; 100]%Z).
Proof.
  destruct (strip name_input) as [|x s] eqn:Hs.
  { rewrite (create_project_blank w _ _ Hs). split; [|congruence].
    eexists. reflexivity. }
  assert (Hne : strip name_input <> []) by (rewrite Hs; discriminate).
  rewrite (progress_of_run w _ _ Hne), outcome_of_run.
  destruct (steps_1_9_reports w (submitted name_input current_index)) as [[r Hr] Hok].
  split.
  - destruct (outcome (steps_1_9 w (submitted name_input current_index))) as [a|e] eqn:Ho.
    + rewrite (Hok a eq_refl). exists []. reflexivity.
    + exists (r ++ [100%Z]). rewrite app_nil_r, app_assoc, Hr. reflexivity.
  - intros _ Ho. rewrite Ho, (Hok tt Ho). reflexivity.
Qed.

Lemma progress_reports_in_order_witness :
  progress_values (trace (create_project (calm_world []) (py "demo") 0))
  = [11; 22; 33; 44; 55; 66; 77; 88; 100]%Z.
Proof.
  apply (progress_reports_in_order (calm_world []) (py "demo") 0); [discriminate|].
  reflexivity.
Defined.

(** X6.  A run reports progress 100 exactly when its [try] block ran to its
    end: the full bar is never shown for a run whose error reached the
    handler of [run_setup], and always shown otherwise. *)
Theorem progress_100_iff_completed (w : world) (name_input : pystr) (current_index : Z) :
  strip name_input <> [] ->
  (In (progress_signal 100) (trace (create_project w name_input current_index))
   <-> outcome (run_setup_body w (submitted name_input current_index)) = Ok tt).
Proof.
  intros Hne.
  assert (Hin : forall tr, In (progress_signal 100) tr <-> In 100%Z (progress_values tr)).
  { induction tr as [|ev tr IH]; [reflexivity|].
    destruct ev; simpl; rewrite <- ?IH; split; intros H;
      try (destruct H as [H | H]; [discriminate | assumption]);
      try (right; assumption).
    - destruct H as [H | H]; [left; congruence | right; assumption].
    - destruct H as [H | H]; [left; congruence | right; assumption]. }
  rewrite Hin, (progress_of_run w _ _ Hne), outcome_of_run.
  destruct (steps_1_9_reports w (submitted name_input current_index)) as [[r Hr] Hok].
  destruct (outcome (steps_1_9 w (submitted name_input current_index))) as [[]|e] eqn:Ho.
  - split; [reflexivity|]. intros _. apply in_or_app. right. left. reflexivity.
  - split; [|discriminate]. rewrite app_nil_r. intros H.
    assert (H' : In 100%Z [11; 22; 33; 44; 55; 66; 77; 88]%Z)
      by (rewrite <- Hr; apply in_or_app; left; assumption).
    simpl in H'. repeat destruct H' as [H' | H']; try discriminate. destruct H'.
Qed.

Lemma progress_100_iff_completed_witness :
  In (progress_signal 100) (trace (create_project pip_fails_world (py "demo") 0))
  /\ ~ In (progress_signal 100) (trace (create_project full_disk_world (py "demo") 0)).
Proof.
  split.
  - apply (progress_100_iff_completed pip_fails_world (py "demo") 0); [discriminate|].
    reflexivity.
  - intros H.
    apply (progress_100_iff_completed full_disk_world (py "demo") 0) in H; [|discriminate].
    discriminate H.
Defined.

(** ** The run on a host where nothing fails *)

(** X7.  When the project directory does not exist yet, the template server
    answers 200 and no call fails, the run makes the nine steps in
    order and ends with the final report: no [ERROR] line is logged and
    every progress value is reported. *)
Theorem calm_run (w : world) (name_input : pystr) (current_index : Z) :
  strip name_input <> [] ->
  os_path_exists w (project_dir_of w (submitted name_input current_index)) = false ->
  fst (http_response w gitignore_url) = 200%Z ->
  (0 <= current_index <= 2)%Z ->
  (forall c, raises w c = None) ->
  trace (create_project w name_input current_index) =
  start_events
  ++ scaffold_script w (submitted name_input current_index)
  ++ fetch_events w
  ++ vcs_lint_script
  ++ template_script w (submitted name_input current_index)
  ++ editor_config_script w
  ++ [output_signal (py "INFO: Installing dependencies...");
      Ext (pip_install w (venv_dir_of w (submitted name_input current_index)));
      output_signal (py "SUCCESS: Dependencies installed.");
      progress_signal 88;
      Ext (launch_editor (project_dir_of w (submitted name_input current_index)));
      output_signal (py "SUCCESS: Project opened in VS Code.");
      progress_signal 100;
      create_button_setEnabled true; cancel_button_setEnabled true]
  /\ outcome (run_setup_body w (submitted name_input current_index)) = Ok tt
  /\ forallb (fun text => negb (startswith text (py "ERROR")))
       (output_texts (trace (create_project w name_input current_index))) = true.
Proof.
  intros Hne Hex H200 Hidx Hcalls. set (self := submitted name_input current_index) in *.
  assert (Hty : (1 <= project_type self <= 3)%Z) by (simpl; lia).
  assert (Hp : pipeline w self =
               (scaffold_script w self ++ fetch_events w ++ vcs_lint_script
                ++ template_script w self ++ editor_config_script w
                ++ install_and_launch_script w self ++ finish_script, Ok tt)).
  { rewrite pipeline_steps_1_6, (steps_1_6_run w self Hex H200 Hty (fun c _ => Hcalls c)).
    rewrite bind_done. unfold steps_8_9.
    rewrite (install_dependencies_returned w _ (Hcalls _)).
    unfold open_in_vscode, perform. rewrite (Hcalls (launch_editor _)).
    rewrite (run_script_ok w (editor_config_script w) (fun c _ => Hcalls c)).
    unfold events_1_6, pre. cbn [bind try_except trace outcome fst snd emit tell].
    rewrite <- !app_assoc. reflexivity. }
  assert (Ht : trace (create_project w name_input current_index) =
               start_events
               ++ scaffold_script w self ++ fetch_events w ++ vcs_lint_script
               ++ template_script w self ++ editor_config_script w
               ++ install_and_launch_script w self ++ finish_script).
  { rewrite (create_project_trace w _ _ Hne). fold self. rewrite Hp.
    cbn [trace outcome fst snd]. rewrite app_nil_r. reflexivity. }
  split; [exact Ht|]. split; [rewrite run_setup_body_pipeline, Hp; reflexivity|].
  rewrite Ht. unfold template_script, self. cbn [project_type submitted].
  assert (Hcases : current_index = 0%Z \/ current_index = 1%Z \/ current_index = 2%Z) by lia.
  destruct Hcases as [-> | [-> | ->]]; reflexivity.
Qed.

Lemma calm_run_witness :
  outcome (run_setup_body (calm_world (py "*.pyc")) (submitted (py "demo") 2)) = Ok tt.
Proof.
  apply (calm_run (calm_world (py "*.pyc")) (py "demo") 2).
  - discriminate.
  - reflexivity.
  - reflexivity.
  - lia.
  - intros c. reflexivity.
Defined.

(** ** The success line of the Template Generator *)

Lemma steps_1_6_script w self :
  os_path_exists w (project_dir_of w self) = false ->
  fst (http_response w gitignore_url) = 200%Z ->
  (1 <= project_type self <= 3)%Z ->
  steps_1_6 w self = run_script w (events_1_6 w self).
Proof.
  intros Hex H200 Hty. unfold steps_1_6, steps_1_2, check_exists.
  rewrite Hex, bind_ret, (download_gitignore_200 w H200), (select_template_script w self Hty).
  rewrite ?bind_assoc. repeat rewrite ?(script_app w), ?(script_app_bind w).
  rewrite <- ?app_assoc. reflexivity.
Qed.

Lemma template_script_done w self :
  (1 <= project_type self <= 3)%Z -> template_done (template_script w self).
Proof.
  intros Hty. unfold template_script, template_done.
  destruct (Z.eqb_spec (project_type self) 1); [left; in_script|].
  destruct (Z.eqb_spec (project_type self) 2); [right; left; in_script|].
  destruct (Z.eqb_spec (project_type self) 3); [right; right; in_script|]. lia.
Qed.

Lemma template_done_run w name_input current_index :
  template_done (trace (create_project w name_input current_index)) ->
  outcome (steps_1_6 w (submitted name_input current_index)) = Ok tt.
Proof.
  intros Hdone. destruct (template_completed w _ _ Hdone) as (Hne & _).
  rewrite (create_project_trace w _ _ Hne) in Hdone.
  apply template_done_pipeline.
  apply template_done_app in Hdone. destruct Hdone as [Hdone | Hdone].
  - exfalso. revert Hdone. apply not_template_done. reflexivity.
  - apply template_done_app in Hdone. destruct Hdone as [Hdone | Hdone]; [assumption|].
    exfalso. revert Hdone. apply not_template_done.
    destruct (outcome (pipeline w (submitted name_input current_index))); reflexivity.
Qed.

(** X8.  The log holds the success line of the Template Generator exactly
    when the name is not blank, the project directory did not exist,
    the template server answered 200, one of the three project types
    was selected and every call of the steps 1 to 6 returned; the run
    then begins with all the events of these steps. *)
Theorem template_success_line_is_sound
    (w : world) (name_input : pystr) (current_index : Z) :
  (template_done (trace (create_project w name_input current_index))
   <-> strip name_input <> []
       /\ os_path_exists w (project_dir_of w (submitted name_input current_index)) = false
       /\ fst (http_response w gitignore_url) = 200%Z
       /\ (0 <= current_index <= 2)%Z
       /\ (forall c, In (Ext c) (events_1_6 w (submitted name_input current_index)) ->
                     raises w c = None))
  /\ (template_done (trace (create_project w name_input current_index)) ->
      exists rest,
        trace (create_project w name_input current_index) =
        start_events
        ++ scaffold_script w (submitted name_input current_index)
        ++ fetch_events w
        ++ vcs_lint_script
        ++ template_script w (submitted name_input current_index)
        ++ rest).
Proof.
  set (self := submitted name_input current_index).
  split; [split|].
  - intros Hdone.
    destruct (template_completed w _ _ Hdone) as (Hne & Hex & H200 & Hidx & _).
    fold self in Hex.
    assert (Hty : (1 <= project_type self <= 3)%Z) by (simpl; lia).
    split; [assumption|]. split; [assumption|]. split; [assumption|]. split; [lia|].
    apply template_done_run in Hdone. fold self in Hdone.
    rewrite (steps_1_6_script w self Hex H200 Hty) in Hdone.
    apply script_ok_inv. assumption.
  - intros (Hne & Hex & H200 & Hidx & Hcalls). fold self in Hex, Hcalls.
    assert (Hty : (1 <= project_type self <= 3)%Z) by (simpl; lia).
    rewrite (create_project_trace w _ _ Hne), pipeline_steps_1_6. fold self.
    rewrite (steps_1_6_run w self Hex H200 Hty Hcalls), bind_done, trace_pre.
    pose proof (template_script_done w self Hty) as [H | [H | H]];
      [left | right; left | right; right];
      unfold events_1_6; rewrite !in_app_iff; tauto.
  - intros Hdone.
    destruct (template_completed w _ _ Hdone) as (_ & _ & _ & _ & rest & ->).
    exists rest. unfold events_1_6. rewrite <- !app_assoc. reflexivity.
Qed.

Lemma template_success_line_is_sound_witness :
  template_done (trace (create_project (calm_world []) (py "demo") 1)).
Proof.
  apply (template_success_line_is_sound (calm_world []) (py "demo") 1).
  split; [discriminate|]. split; [reflexivity|]. split; [reflexivity|]. split; [lia|].
  intros c _. reflexivity.
Defined.

(** ** The project directory *)

(** X9.  Whatever call a run makes, the existence check has passed before,
    the first call of the run creates the project directory, and when
    that call returns the second one changes into it: every file the
    later steps name by a relative path is made below the project
    directory. *)
Theorem project_directory_comes_first
    (w : world) (name_input : pystr) (current_index : Z) (c : call) :
  In (Ext c) (trace (create_project w name_input current_index)) ->
  os_path_exists w (os_path_join w BASE_PATH [strip name_input]) = false
  /\ exists rest,
       trace (create_project w name_input current_index) =
       start_events
       ++ Ext (os_makedirs (os_path_join w BASE_PATH [strip name_input]) false) :: rest
       /\ (raises w (os_makedirs (os_path_join w BASE_PATH [strip name_input]) false) = None ->
           exists rest',
             rest = Ext (os_chdir (os_path_join w BASE_PATH [strip name_input])) :: rest').
Proof.
  intros Hin. apply create_project_call in Hin. destruct Hin as [Hne Hin].
  rewrite (create_project_trace w _ _ Hne).
  set (self := submitted name_input current_index) in *.
  change (os_path_join w BASE_PATH [strip name_input]) with (project_dir_of w self).
  destruct (os_path_exists w (project_dir_of w self)) eqn:Hex.
  { exfalso. unfold pipeline, check_exists in Hin. rewrite Hex in Hin. destruct Hin. }
  split; [reflexivity|].
  assert (Hp : exists r, trace (pipeline w self) = Ext (os_makedirs (project_dir_of w self) false) :: r
               /\ (raises w (os_makedirs (project_dir_of w self) false) = None ->
                   exists r', r = Ext (os_chdir (project_dir_of w self)) :: r')).
  { unfold pipeline, check_exists. rewrite Hex, bind_ret. unfold scaffold_script.
    cbn [run_script].
    destruct (raises w (os_makedirs (project_dir_of w self) false)) as [e|].
    - exists []. split; [reflexivity | discriminate].
    - rewrite bind_pre, trace_pre.
      destruct (raises w (os_chdir (project_dir_of w self))) as [e|].
      + eexists. split; [reflexivity|]. intros _. eexists. reflexivity.
      + rewrite bind_pre, trace_pre. eexists. split; [reflexivity|].
        intros _. eexists. reflexivity. }
  destruct Hp as (r & -> & Hr).
  eexists. split; [reflexivity|].
  intros Hmk. destruct (Hr Hmk) as [r' ->]. eexists. reflexivity.
Qed.

Lemma project_directory_comes_first_witness :
  os_path_exists (calm_world []) (os_path_join (calm_world []) BASE_PATH [strip (py " demo ")])
  = false.
Proof.
  apply (project_directory_comes_first (calm_world []) (py " demo ") 0
           (file_write (py "ruff.toml") ruff_config)).
  vm_compute. repeat first [ left; reflexivity | right ].
Defined.

(** ** An invalid project type *)

Lemma steps_1_5_run w self :
  os_path_exists w (project_dir_of w self) = false ->
  fst (http_response w gitignore_url) = 200%Z ->
  (forall c, In (Ext c) (scaffold_script w self ++ fetch_events w ++ vcs_lint_script) ->
             raises w c = None) ->
  steps_1_5 w self = (scaffold_script w self ++ fetch_events w ++ vcs_lint_script, Ok tt).
Proof.
  intros Hex H200 Hcalls. unfold steps_1_5, steps_1_2, check_exists.
  rewrite Hex, bind_ret, (download_gitignore_200 w H200).
  rewrite ?bind_assoc. repeat rewrite ?(script_app w), ?(script_app_bind w).
  rewrite <- ?app_assoc. apply run_script_ok. assumption.
Qed.

Lemma pipeline_steps_1_5 w self :
  pipeline w self =
  steps_1_5 w self ;; select_template w self ;;
  run_script w (editor_config_script w) ;; steps_8_9 w self.
Proof.
  rewrite pipeline_steps_1_6, steps_1_6_split. rewrite !bind_assoc. reflexivity.
Qed.

(** X10.  A project type other than the three known ones is rejected after
    the steps 1 to 5: the directory, the virtual environment, the
    [.gitignore], the repository and [ruff.toml] have been made and stay;
    no template is written and the log ends with the error, which
    carries its own [ERROR:] in front of the handler's. *)
Theorem invalid_type_is_rejected_after_step_5
    (w : world) (name_input : pystr) (current_index : Z) :
  strip name_input <> [] ->
  os_path_exists w (project_dir_of w (submitted name_input current_index)) = false ->
  fst (http_response w gitignore_url) = 200%Z ->
  (forall c, In (Ext c) (scaffold_script w (submitted name_input current_index)
                         ++ fetch_events w ++ vcs_lint_script) ->
             raises w c = None) ->
  (current_index < 0 \/ 2 < current_index)%Z ->
  trace (create_project w name_input current_index) =
  start_events
  ++ scaffold_script w (submitted name_input current_index)
  ++ fetch_events w
  ++ vcs_lint_script
  ++ [output_signal (py "ERROR: ERROR: Invalid project type selected.");
      create_button_setEnabled true; cancel_button_setEnabled true]
  /\ outcome (run_setup_body w (submitted name_input current_index))
     = Err (mk_exn ValueError (py "ERROR: Invalid project type selected.")).
Proof.
  intros Hne Hex H200 Hcalls Hidx. set (self := submitted name_input current_index) in *.
  assert (Hsel : select_template w self = raise invalid_type).
  { unfold select_template.
    destruct (Z.eqb_spec (project_type self) 1) as [E|_]; [simpl in E; lia|].
    destruct (Z.eqb_spec (project_type self) 2) as [E|_]; [simpl in E; lia|].
    destruct (Z.eqb_spec (project_type self) 3) as [E|_]; [simpl in E; lia|].
    reflexivity. }
  assert (Hp : pipeline w self =
               (scaffold_script w self ++ fetch_events w ++ vcs_lint_script, Err invalid_type)).
  { rewrite pipeline_steps_1_5, (steps_1_5_run w self Hex H200 Hcalls), bind_done, Hsel.
    unfold pre. cbn [bind raise trace outcome fst snd]. rewrite app_nil_r. reflexivity. }
  rewrite (create_project_trace w _ _ Hne), run_setup_body_pipeline. fold self.
  rewrite Hp. cbn [trace outcome fst snd]. split; [|reflexivity].
  rewrite <- !app_assoc. reflexivity.
Qed.

Lemma invalid_type_is_rejected_after_step_5_witness :
  outcome (run_setup_body (calm_world []) (submitted (py "demo") (-1)))
  = Err (mk_exn ValueError (py "ERROR: Invalid project type selected.")).
Proof.
  apply (invalid_type_is_rejected_after_step_5 (calm_world []) (py "demo") (-1)).
  - discriminate.
  - reflexivity.
  - reflexivity.
  - intros c _. reflexivity.
  - lia.
Defined.

(** ** Where an error comes from *)

Lemma error_source_script w self s : error_source w self (run_script w s).
Proof.
  intros e He.
  destruct (run_script_cases w s) as [[Hs _] | (p & c & e' & q & _ & Hc & _ & Hs)];
    rewrite Hs in *; [discriminate|].
  simpl in He. injection He as <-. right. exists c. split; [|assumption].
  simpl. apply in_or_app. right. left. reflexivity.
Qed.

Lemma error_source_bind w self A B (m : M A) (f : A -> M B) :
  error_source w self m -> (forall a, error_source w self (f a)) ->
  error_source w self (bind m f).
Proof.
  intros Hm Hf e He.
  destruct (bind_cases A B m f) as [(a & Ha & Hb) | (e' & He' & Hb)]; rewrite Hb in *.
  - rewrite outcome_pre in He. destruct (Hf a e He) as [Hown | (c & Hin & Hc)];
      [left; assumption|].
    right. exists c. split; [|assumption].
    rewrite trace_pre. apply in_or_app. right. assumption.
  - simpl in He. injection He as <-. apply (Hm e' He').
Qed.

Lemma error_source_ret w self A (a : A) : error_source w self (ret a).
Proof. intros e He. discriminate. Qed.

Lemma error_source_if w self A (b : bool) (m1 m2 : M A) :
  error_source w self m1 -> error_source w self m2 ->
  error_source w self (if b then m1 else m2).
Proof. destruct b; auto. Qed.

Lemma error_source_own w self A e : own_error w self e -> error_source w self (@raise A e).
Proof. intros Hown e' He'. simpl in He'. injection He' as <-. left. assumption. Qed.

(** Handlers that end normally add no error of their own. *)
Lemma error_source_try w self A (m : M A) handlers :
  error_source w self m ->
  (forall e h, find_handler e handlers = Some h -> exists a, outcome h = Ok a) ->
  error_source w self (try_except m handlers).
Proof.
  intros Hm Hh e He. destruct m as [t [a|e']]; simpl in He; [discriminate|].
  destruct (find_handler e' handlers) as [[t' r]|] eqn:Hf; simpl in *.
  - destruct (Hh e' _ Hf) as [a Ha]. simpl in Ha. congruence.
  - injection He as <-. rewrite Hf. apply (Hm e' eq_refl).
Qed.

Lemma error_source_pipeline w self : error_source w self (pipeline w self).
Proof.
  unfold pipeline, check_exists, download_gitignore, select_template,
    install_dependencies, open_in_vscode.
  repeat first
    [ apply error_source_bind; [|intros _]
    | apply error_source_script
    | rewrite (perform_script w)
    | rewrite (emit_script w)
    | apply error_source_ret
    | apply error_source_own; unfold own_error; tauto
    | apply error_source_if
    | apply error_source_try;
      [| intros ? ? Hfind;
         first [ apply find_handler_one in Hfind; subst
               | apply find_handler_two in Hfind; destruct Hfind; subst ];
         exists tt; reflexivity ] ].
Qed.

(** X11.  When the [try] block of [run_setup] ends in an error although no
    call of the run has raised, the error is one the program raises
    itself: the project directory exists, the download was answered
    with another status than 200, or the project type is invalid.  Its
    message begins with [ERROR: ] already, so the line the handler logs
    begins with [ERROR: ERROR: ]. *)
Theorem own_errors_are_logged_with_two_prefixes
    (w : world) (name_input : pystr) (current_index : Z) (e : exn) :
  outcome (run_setup_body w (submitted name_input current_index)) = Err e ->
  (forall c, In (Ext c) (trace (run_setup_body w (submitted name_input current_index))) ->
             raises w c = None) ->
  (e = mk_exn FileExistsError
         (py "ERROR: Project directory " ++ dq
          ++ os_path_join w BASE_PATH [strip name_input] ++ dq ++ py " already exists.")
   \/ e = mk_exn Exception (py "ERROR: Failed to download .gitignore file.")
   \/ e = mk_exn ValueError (py "ERROR: Invalid project type selected."))
  /\ startswith (py "ERROR: " ++ exn_str e) (py "ERROR: ERROR: ") = true
  /\ (strip name_input <> [] ->
      In (output_signal (py "ERROR: " ++ exn_str e))
         (trace (create_project w name_input current_index))).
Proof.
  intros He Hcalls. rewrite run_setup_body_pipeline in *.
  set (self := submitted name_input current_index) in *.
  assert (Hown : own_error w self e).
  { destruct (error_source_pipeline w self e He) as [Hown | (c & Hin & Hc)]; [assumption|].
    rewrite (Hcalls c Hin) in Hc. discriminate. }
  split; [exact Hown|]. split.
  - destruct Hown as [-> | [-> | ->]]; reflexivity.
  - intros Hne. rewrite (create_project_trace w _ _ Hne). fold self. rewrite He.
    apply in_or_app. right. apply in_or_app. right. left. reflexivity.
Qed.

Lemma own_errors_are_logged_with_two_prefixes_witness :
  startswith (py "ERROR: " ++ exn_str download_failed) (py "ERROR: ERROR: ") = true.
Proof.
  apply (own_errors_are_logged_with_two_prefixes (status_world 503 []) (py "demo") 0
           download_failed).
  - reflexivity.
  - intros c _. reflexivity.
Defined.

(** ** The output console *)

Lemma startswith_prefix t a b : startswith t (a ++ b) = true -> startswith t a = true.
Proof.
  revert t. induction a as [|x a IH]; intros t; [destruct t; reflexivity|].
  destruct t as [|c t]; simpl; [discriminate|].
  intros H. apply andb_true_iff in H. destruct H as [-> H]. apply (IH _ H).
Qed.

Lemma startswith_head t c p : startswith t (c :: p) = true -> exists t', t = c :: t'.
Proof.
  destruct t as [|x t]; simpl; [discriminate|].
  intros H. apply andb_true_iff in H. destruct H as [H _].
  apply N.eqb_eq in H. subst x. exists t. reflexivity.
Qed.

Lemma highlight_error t :
  startswith t (py "ERROR") = true ->
  highlightBlock t = Some (0%Z, Z.of_nat (List.length t), py "#FF5252").
Proof. intros H. unfold highlightBlock, formats, highlight_with. rewrite H. reflexivity. Qed.

Lemma highlight_success t :
  startswith t (py "SUCCESS") = true ->
  highlightBlock t = Some (0%Z, Z.of_nat (List.length t), py "#4CAF50").
Proof.
  intros H. destruct (startswith_head _ _ _ H) as [t' ->].
  unfold highlightBlock, formats, highlight_with. rewrite H. reflexivity.
Qed.

Lemma highlight_info t :
  startswith t (py "INFO") = true ->
  highlightBlock t = Some (0%Z, Z.of_nat (List.length t), py "#FFFFFF").
Proof.
  intros H. destruct (startswith_head _ _ _ H) as [t' ->].
  unfold highlightBlock, formats, highlight_with. rewrite H. reflexivity.
Qed.

(** X12.  [highlightBlock] colours a text exactly when one of the three levels
    begins it, over its whole length and in the colour of that level:
    no text begins with two levels, so the order in which the loop tries
    them, and its [break], do not matter. *)
Theorem highlight_by_level (text : pystr) (r : Z * Z * pystr) :
  (highlightBlock text = Some r
   <-> exists level colour,
         In (level, colour) formats /\ startswith text level = true
         /\ r = (0%Z, Z.of_nat (List.length text), colour))
  /\ (highlightBlock text = None
      <-> forall level colour, In (level, colour) formats -> startswith text level = false).
Proof.
  split; split.
  - unfold highlightBlock, formats, highlight_with.
    destruct (startswith text (py "ERROR")) eqn:He;
      [|destruct (startswith text (py "SUCCESS")) eqn:Hs;
        [|destruct (startswith text (py "INFO")) eqn:Hi]];
      intros H; try discriminate; injection H as <-.
    + exists (py "ERROR"), (py "#FF5252"). split; [in_script|]. split; [assumption|reflexivity].
    + exists (py "SUCCESS"), (py "#4CAF50").
      split; [in_script|]. split; [assumption|reflexivity].
    + exists (py "INFO"), (py "#FFFFFF"). split; [in_script|]. split; [assumption|reflexivity].
  - intros (level & colour & Hin & Hs & ->).
    destruct Hin as [E | [E | [E | []]]]; injection E as <- <-.
    + apply highlight_error. assumption.
    + apply highlight_success. assumption.
    + apply highlight_info. assumption.
  - intros Hnone level colour Hin.
    destruct (startswith text level) eqn:Hs; [|reflexivity].
    destruct Hin as [E | [E | [E | []]]]; injection E as <- <-.
    + rewrite (highlight_error _ Hs) in Hnone. discriminate.
    + rewrite (highlight_success _ Hs) in Hnone. discriminate.
    + rewrite (highlight_info _ Hs) in Hnone. discriminate.
  - intros Hall. unfold highlightBlock, formats, highlight_with.
    rewrite (Hall (py "ERROR") (py "#FF5252")) by in_script.
    rewrite (Hall (py "SUCCESS") (py "#4CAF50")) by in_script.
    rewrite (Hall (py "INFO") (py "#FFFFFF")) by in_script.
    reflexivity.
Qed.

Lemma steps_1_9_leveled w self : forallb leveled (trace (steps_1_9 w self)) = true.
Proof. unfold_steps. all_events. Qed.

Lemma handler_leveled e : forallb leveled (handler_events e) = true.
Proof. unfold handler_events. destruct (exn_str e); reflexivity. Qed.

Lemma run_leveled w name_input current_index :
  forallb leveled (trace (create_project w name_input current_index)) = true.
Proof.
  destruct (strip name_input) as [|x s] eqn:Hs.
  { rewrite (create_project_blank w _ _ Hs). reflexivity. }
  assert (Hne : strip name_input <> []) by (rewrite Hs; discriminate).
  rewrite (create_project_trace w _ _ Hne).
  pose proof (steps_1_9_leveled w (submitted name_input current_index)) as Hl.
  destruct (pipeline_cases w (submitted name_input current_index))
    as [[_ ->] | (e & _ & ->)]; cbn [trace outcome fst snd];
    rewrite !forallb_app, Hl, ?handler_leveled; reflexivity.
Qed.

(** X13.  Every text a run emits on [output_signal] begins with [ERROR: ],
    [SUCCESS: ] or [INFO: ], so the highlighter colours every log entry
    over its whole length: red for errors, green for successes, white
    for information. *)
Theorem log_lines_are_highlighted
    (w : world) (name_input : pystr) (current_index : Z) (text : pystr) :
  In (output_signal text) (trace (create_project w name_input current_index)) ->
  (startswith text (py "ERROR: ") = true
   /\ highlightBlock text = Some (0%Z, Z.of_nat (List.length text), py "#FF5252"))
  \/ (startswith text (py "SUCCESS: ") = true
      /\ highlightBlock text = Some (0%Z, Z.of_nat (List.length text), py "#4CAF50"))
  \/ (startswith text (py "INFO: ") = true
      /\ highlightBlock text = Some (0%Z, Z.of_nat (List.length text), py "#FFFFFF")).
Proof.
  intros Hin.
  apply (proj1 (forallb_forall _ _) (run_leveled w name_input current_index)) in Hin.
  unfold leveled, has_level in Hin.
  destruct (startswith text (py "ERROR: ")) eqn:He;
    [|destruct (startswith text (py "SUCCESS: ")) eqn:Hs;
      [|destruct (startswith text (py "INFO: ")) eqn:Hi; [|discriminate]]].
  - left. split; [reflexivity|].
    apply highlight_error, (startswith_prefix text (py "ERROR") (py ": ")). assumption.
  - right. left. split; [reflexivity|].
    apply highlight_success, (startswith_prefix text (py "SUCCESS") (py ": ")). assumption.
  - right. right. split; [reflexivity|].
    apply highlight_info, (startswith_prefix text (py "INFO") (py ": ")). assumption.
Qed.

Lemma log_lines_are_highlighted_witness :
  highlightBlock (py "ERROR: [Errno 28] No space left on device")
  = Some (0%Z, 41%Z, py "#FF5252").
Proof.
  destruct (log_lines_are_highlighted full_disk_world (py "demo") 0
              (py "ERROR: [Errno 28] No space left on device")) as [[_ H] | [[H _] | [H _]]].
  - vm_compute. repeat first [ left; reflexivity | right ].
  - exact H.
  - discriminate H.
  - discriminate H.
Defined.

(** ** The widgets after a run *)

Lemma output_texts_app l1 l2 : output_texts (l1 ++ l2) = output_texts l1 ++ output_texts l2.
Proof.
  induction l1 as [|ev l1 IH]; [reflexivity|].
  destruct ev; simpl; rewrite ?IH; reflexivity.
Qed.

Lemma gui_after_app g l1 l2 : gui_after g (l1 ++ l2) = gui_after (gui_after g l1) l2.
Proof. apply fold_left_app. Qed.

Lemma gui_eta g :
  g = mk_gui (create_button_enabled g) (cancel_button_enabled g) (progress_bar_value g)
        (output_text g).
Proof. destruct g; reflexivity. Qed.

Lemma last_cons_default (z : Z) l a b : last (z :: l) a = last (z :: l) b.
Proof.
  revert z. induction l as [|y l IH]; intros z; [reflexivity|].
  change (last (y :: l) a = last (y :: l) b). apply IH.
Qed.

(** Plain events append to the console and move the bar; they leave the
    buttons alone. *)
Lemma gui_after_plain tr g :
  forallb plain_event tr = true ->
  gui_after g tr =
  mk_gui (create_button_enabled g) (cancel_button_enabled g)
    (last (progress_values tr) (progress_bar_value g))
    (output_text g ++ output_texts tr).
Proof.
  revert g. induction tr as [|ev tr IH]; intros g Hp.
  - simpl. rewrite app_nil_r. apply gui_eta.
  - simpl in Hp. apply andb_true_iff in Hp. destruct Hp as [Hev Hp].
    change (gui_after g (ev :: tr)) with (gui_after (deliver g ev) tr).
    rewrite (IH _ Hp).
    destruct ev; try discriminate; cbn [deliver append_output update_progress
      create_button_enabled cancel_button_enabled progress_bar_value output_text
      progress_values output_texts]; try reflexivity.
    + rewrite <- app_assoc. reflexivity.
    + destruct (progress_values tr) as [|z l]; [reflexivity|].
      change (last (value :: z :: l) (progress_bar_value g))
        with (last (z :: l) (progress_bar_value g)).
      rewrite (last_cons_default z l value (progress_bar_value g)). reflexivity.
Qed.

(** The buttons' calls and the slots of the two signals touch different
    widgets: in whatever order they reach the window, the result is the
    same. *)
Lemma deliver_button_commutes g ev ev' :
  is_button_event ev = true -> plain_event ev' = true ->
  deliver (deliver g ev) ev' = deliver (deliver g ev') ev.
Proof. destruct ev; try discriminate; destruct ev'; try discriminate; reflexivity. Qed.

Lemma steps_1_9_plain w self : forallb plain_event (trace (steps_1_9 w self)) = true.
Proof. unfold_steps. all_events. Qed.

(** X14.  After a run on a name that is not blank, whatever the window showed
    before and whatever failed: both buttons are enabled, the console
    holds exactly the texts the run emitted, in order, and the bar shows
    the last progress value reported (0 if none was).  A blank name
    leaves the window as it was.  The events are applied in the order
    of the run; by [deliver_button_commutes] the order between the
    buttons' calls and the slots does not change the result. *)
Theorem window_after_run (w : world) (name_input : pystr) (current_index : Z) (g : gui) :
  (strip name_input <> [] ->
   gui_after g (trace (create_project w name_input current_index)) =
   mk_gui true true
     (last (progress_values (trace (create_project w name_input current_index))) 0%Z)
     (output_texts (trace (create_project w name_input current_index))))
  /\ (strip name_input = [] ->
      gui_after g (trace (create_project w name_input current_index)) = g).
Proof.
  split.
  - intros Hne. rewrite (create_project_trace w _ _ Hne).
    set (self := submitted name_input current_index).
    pose proof (steps_1_9_plain w self) as Hplain.
    assert (Hstart : forall tr, gui_after g (start_events ++ tr) = gui_after (mk_gui false false 0 []) tr).
    { intros tr. rewrite gui_after_app. reflexivity. }
    assert (Hend : forall body,
              forallb plain_event body = true ->
              gui_after g (start_events ++ body
                           ++ [create_button_setEnabled true; cancel_button_setEnabled true])
              = mk_gui true true
                  (last (progress_values
                           (start_events ++ body
                            ++ [create_button_setEnabled true; cancel_button_setEnabled true]))
                        0%Z)
                  (output_texts
                     (start_events ++ body
                      ++ [create_button_setEnabled true; cancel_button_setEnabled true]))).
    { intros body Hbody.
      rewrite Hstart, gui_after_app, (gui_after_plain body _ Hbody).
      rewrite !progress_values_app, !output_texts_app.
      cbn [gui_after fold_left deliver create_button_enabled cancel_button_enabled
           progress_bar_value output_text progress_values output_texts start_events List.app].
      rewrite !app_nil_r. reflexivity. }
    destruct (pipeline_cases w self) as [[_ ->] | (e & _ & ->)]; cbn [trace outcome fst snd].
    + assert (Ht : start_events ++ (trace (steps_1_9 w self) ++ finish_script) ++ [] =
                   start_events ++ (trace (steps_1_9 w self) ++ [progress_signal 100])
                   ++ [create_button_setEnabled true; cancel_button_setEnabled true]).
      { unfold finish_script. rewrite app_nil_r, <- !app_assoc. reflexivity. }
      rewrite Ht. apply Hend. rewrite forallb_app, Hplain. reflexivity.
    + assert (Ht : start_events ++ trace (steps_1_9 w self) ++ handler_events e =
                   start_events
                   ++ (trace (steps_1_9 w self) ++ [output_signal (py "ERROR: " ++ exn_str e)])
                   ++ [create_button_setEnabled true; cancel_button_setEnabled true]).
      { unfold handler_events. rewrite <- !app_assoc. reflexivity. }
      rewrite Ht. apply Hend. rewrite forallb_app, Hplain. reflexivity.
  - intros Hs. rewrite (create_project_blank w _ _ Hs). reflexivity.
Qed.

Lemma window_after_run_witness :
  progress_bar_value
    (gui_after (mk_gui true true 100 [py "SUCCESS: Project opened in VS Code."])
       (trace (create_project full_disk_world (py "demo") 0))) = 66%Z.
Proof.
  destruct (window_after_run full_disk_world (py "demo") 0
              (mk_gui true true 100 [py "SUCCESS: Project opened in VS Code."])) as [H _].
  rewrite H; [reflexivity | discriminate].
Defined.

(** ** The arguments of the Dockerfile's [CMD] *)

Lemma forallb_rev (P : N -> bool) l : forallb P l = true -> forallb P (rev l) = true.
Proof.
  intros H. apply forallb_forall. intros x Hx. apply in_rev in Hx.
  apply (proj1 (forallb_forall P l) H x Hx).
Qed.

Lemma rev_word cur : cur <> [] -> forallb not_space cur = true -> is_word (rev cur).
Proof.
  intros Hne Hcur. split; [|apply forallb_rev; assumption].
  intros Hrev. apply Hne. rewrite <- (rev_involutive cur), Hrev. reflexivity.
Qed.

Lemma split_from_words cur s :
  forallb not_space cur = true -> Forall is_word (split_from cur s).
Proof.
  revert cur. induction s as [|c r IH]; intros cur Hcur; simpl.
  - destruct cur as [|x cur]; [constructor|].
    constructor; [|constructor]. apply rev_word; [discriminate | assumption].
  - destruct (isspace c) eqn:Hc.
    + destruct cur as [|x cur]; [apply IH; reflexivity|].
      constructor; [apply rev_word; [discriminate | assumption] | apply IH; reflexivity].
    + apply IH. simpl. unfold not_space at 1. rewrite Hc. assumption.
Qed.

Lemma split_from_concat cur s :
  List.concat (split_from cur s) = rev cur ++ filter not_space s.
Proof.
  revert cur. induction s as [|c r IH]; intros cur; simpl.
  - destruct cur as [|x cur]; [reflexivity|]. simpl. reflexivity.
  - unfold not_space at 1. destruct (isspace c) eqn:Hc; simpl.
    + destruct cur as [|x cur]; [apply IH|]. simpl. rewrite IH. reflexivity.
    + rewrite IH. simpl. rewrite <- app_assoc. reflexivity.
Qed.

Lemma filter_not_space_nil s : filter not_space s = [] <-> forallb isspace s = true.
Proof.
  induction s as [|c r IH]; simpl; [tauto|].
  unfold not_space at 1. destruct (isspace c); simpl; [assumption|].
  split; discriminate.
Qed.

Lemma concat_words_nil args : Forall is_word args -> List.concat args = [] -> args = [].
Proof.
  intros Hw Hc. destruct args as [|a args]; [reflexivity|].
  inversion Hw as [|? ? [Hne _] _]. simpl in Hc.
  apply app_eq_nil in Hc. destruct Hc as [Ha _]. contradiction.
Qed.

(** X15.  The [CMD] line of the Dockerfile lists the words of the command:
    each argument is a non-empty piece of the command without
    whitespace, the arguments together are the command with its
    whitespace taken out, and there is none exactly when the command is
    all whitespace.  Without a command, or with the empty one, the line
    is the fixed one that runs [app/main.py]. *)
Theorem dockerfile_cmd_arguments (command : pystr) :
  command <> [] ->
  (dockerfile_content (Some command) =
   dockerfile_base ++ py "CMD ["
   ++ join (py ", ") (map (fun arg => dq ++ arg ++ dq) (split command)) ++ ln "]"
   /\ Forall is_word (split command)
   /\ List.concat (split command) = filter not_space command
   /\ (split command = [] <-> forallb isspace command = true))
  /\ dockerfile_content None =
     dockerfile_base ++ py "CMD [" ++ dq ++ py "python" ++ dq ++ py ", "
     ++ dq ++ py "app/main.py" ++ dq ++ ln "]"
  /\ dockerfile_content (Some []) = dockerfile_content None.
Proof.
  intros Hne.
  assert (Hw : Forall is_word (split command)) by (apply split_from_words; reflexivity).
  assert (Hc : List.concat (split command) = filter not_space command)
    by (apply (split_from_concat [] command)).
  split; [|split; reflexivity].
  split; [|split; [assumption|split; [assumption|]]].
  - destruct command as [|c r]; [congruence|].
    unfold dockerfile_content, dockerfile_base. cbv zeta.
    rewrite <- !app_assoc. reflexivity.
  - rewrite <- filter_not_space_nil, <- Hc. split.
    + intros ->. reflexivity.
    + apply concat_words_nil. assumption.
Qed.

Lemma dockerfile_cmd_arguments_witness :
  dockerfile_content (Some (py "  uvicorn   app.main:app --reload ")) =
  dockerfile_base ++ py "CMD ["
  ++ join (py ", ") (map (fun arg => dq ++ arg ++ dq)
                       [py "uvicorn"; py "app.main:app"; py "--reload"])
  ++ ln "]".
Proof.
  apply (dockerfile_cmd_arguments (py "  uvicorn   app.main:app --reload ")). discriminate.
Defined.

(** ** What the Dependency Installer runs on *)

Lemma rest_after_install_no_pip w self :
  no_call is_pip_install
    (trace (run_script w [progress_signal 88] ;;
            open_in_vscode w (project_dir_of w self) ;;
            run_script w finish_script)) = true.
Proof. unfold no_call, open_in_vscode. all_events. Qed.

(** Steps 8 and 9 begin with the announcement and the package manager's
    call, and call no other program with four arguments. *)
Lemma steps_8_9_begin w self :
  exists t,
    trace (steps_8_9 w self) =
    output_signal (py "INFO: Installing dependencies...")
    :: Ext (pip_install w (venv_dir_of w self)) :: t
    /\ no_call is_pip_install t = true.
Proof.
  pose proof (rest_after_install_no_pip w self) as Hrest. unfold steps_8_9.
  destruct (raises w (pip_install w (venv_dir_of w self))) as [e|] eqn:Hc.
  - destruct (exn_type e) eqn:Hty;
      try (rewrite (install_dependencies_uncaught w _ e Hc) by (rewrite Hty; discriminate);
           exists []; split; reflexivity).
    rewrite (install_dependencies_caught w _ e Hc Hty), bind_done, trace_pre.
    exists ([output_signal (py "ERROR: Failed to install dependencies: " ++ exn_str e)]
            ++ trace (run_script w [progress_signal 88] ;;
                      open_in_vscode w (project_dir_of w self) ;;
                      run_script w finish_script)).
    split; [reflexivity|]. rewrite no_call_app, Hrest. reflexivity.
  - rewrite (install_dependencies_returned w _ Hc), bind_done, trace_pre.
    exists ([output_signal (py "SUCCESS: Dependencies installed.")]
            ++ trace (run_script w [progress_signal 88] ;;
                      open_in_vscode w (project_dir_of w self) ;;
                      run_script w finish_script)).
    split; [reflexivity|]. rewrite no_call_app, Hrest. reflexivity.
Qed.

Lemma template_script_requirements w self :
  (project_type self = 1 \/ project_type self = 2 \/ project_type self = 3)%Z ->
  exists packages,
    In (Ext (file_write (py "requirements.txt") (requirements_content packages)))
       (template_script w self).
Proof.
  unfold template_script. intros [-> | [-> | ->]].
  - exists basic_packages. unfold basic_script. in_script.
  - exists data_analytics_packages. unfold data_analytics_script. in_script.
  - exists fastapi_packages. unfold fastapi_script. in_script.
Qed.

(** X16.  The only program a run calls with four arguments is the
    [pip] of the virtual environment, in the directory of the host's
    kind ([Scripts] on [nt], [bin] elsewhere), with [install -r
    requirements.txt]; and when it is called, the virtual environment
    has been created and [requirements.txt] has been written earlier
    in the same run. *)
Theorem installer_runs_on_prepared_project
    (w : world) (name_input : pystr) (current_index : Z) (c : call) :
  In (Ext c) (trace (create_project w name_input current_index)) ->
  is_pip_install c = true ->
  c = subprocess_run
        [(if PyStr.eqb (os_name w) (py "nt")
          then os_path_join w
                 (os_path_join w (os_path_join w BASE_PATH [strip name_input]) [py ".venv"])
                 [py "Scripts"; py "pip.exe"]
          else os_path_join w
                 (os_path_join w (os_path_join w BASE_PATH [strip name_input]) [py ".venv"])
                 [py "bin"; py "pip"]);
         py "install"; py "-r"; py "requirements.txt"] true
  /\ exists before after packages,
       trace (create_project w name_input current_index) = before ++ Ext c :: after
       /\ In (Ext (venv_create
                     (os_path_join w (os_path_join w BASE_PATH [strip name_input]) [py ".venv"])
                     true)) before
       /\ In (Ext (file_write (py "requirements.txt") (requirements_content packages))) before.
Proof.
  intros Hin Hpip. set (self := submitted name_input current_index).
  apply create_project_call in Hin. destruct Hin as [Hne Hin]. fold self in Hin.
  rewrite (create_project_trace w _ _ Hne). fold self.
  pose proof (proj1 (steps_1_7_no_later_call w self)) as Hno.
  rewrite pipeline_steps_1_7 in *.
  destruct (bind_cases _ _ (steps_1_7 w self) (fun _ => steps_8_9 w self))
    as [([] & Ha & Hb) | (e & _ & Hb)]; rewrite Hb in *.
  - destruct (steps_1_7_ok w self Ha) as (H17 & _ & _ & Hty).
    rewrite H17 in *. rewrite trace_pre in *. cbn [trace fst] in Hno.
    destruct (steps_8_9_begin w self) as (t & Ht & Hnot). rewrite Ht in *.
    assert (Hc : c = pip_install w (venv_dir_of w self)).
    { apply in_app_or in Hin. destruct Hin as [Hin | [Hin | [Hin | Hin]]].
      - apply (no_call_In _ _ _ Hno) in Hin. congruence.
      - discriminate.
      - congruence.
      - apply (no_call_In _ _ _ Hnot) in Hin. congruence. }
    split; [rewrite Hc; reflexivity|].
    destruct (template_script_requirements w self Hty) as [packages Hreq].
    exists (start_events ++ events_1_7 w self
            ++ [output_signal (py "INFO: Installing dependencies...")]),
      (t ++ match outcome (steps_8_9 w self) with
            | Ok _ => []
            | Err e => handler_events e
            end),
      packages.
    split; [|split].
    + rewrite Hc, outcome_pre, <- !app_assoc. reflexivity.
    + unfold events_1_7, events_1_6, scaffold_script. rewrite !in_app_iff.
      right. left. left. left. in_script.
    + unfold events_1_7, events_1_6. rewrite !in_app_iff. tauto.
  - simpl in Hin. apply (no_call_In _ _ _ Hno) in Hin. congruence.
Qed.

Lemma installer_runs_on_prepared_project_witness :
  pip_install pip_fails_world (py "D:\eora/demo/.venv")
  = subprocess_run
      [py "D:\eora/demo/.venv/bin/pip"; py "install"; py "-r"; py "requirements.txt"] true.
Proof.
  apply (installer_runs_on_prepared_project pip_fails_world (py "demo") 0
           (pip_install pip_fails_world (py "D:\eora/demo/.venv"))).
  - vm_compute. repeat first [ left; reflexivity | right ].
  - reflexivity.
Defined.
